(** * NeuroMind AI: the deterministic core of the study assistant

    A shallow embedding of the pure logic of the repository:
    - [classify_student] and [assign_priority_and_duration] (app.py,
      summarizer_backend.py, schedule.py),
    - the two versions of [get_text_for_topic] (the substring version of
      app.py, the regular-expression version of summarizer_backend.py),
    - the validation block of [generate_questions] (qna.py),
    - the weekly scheduling loop (app.py tab 4, schedule.py).

    Python [str] values that are processed character by character are
    lists of characters; a character is one of Rocq's 8-bit [ascii],
    read as the code points U+0000..U+00FF. Dictionary keys and fixed
    labels are [string]s. Python [int] scores are [Z]. *)

From Stdlib Require Import ZArith Lia List Ascii String Sorted.
From stdpp Require Import base list strings gmap pretty.

Local Open Scope Z_scope.
Set Warnings "-register-all".

(** ** Python strings *)

Module PyStr.

Abbreviation pystr := (list ascii).

(** A string literal as a Python [str]. *)
Definition str (s : string) : pystr := list_ascii_of_string s.

Definition code (c : ascii) : N := N_of_ascii c.

Definition LF : ascii := ascii_of_N 10.
Definition CR : ascii := ascii_of_N 13.
Definition DOT : ascii := ascii_of_N 46.

(** [str.isspace] on one character, which is also the class [\s] of
    [re] on [str] patterns: U+0009..U+000D, U+001C..U+0020, U+0085 and
    U+00A0 are the white space below U+0100. *)
Definition is_space (c : ascii) : bool :=
  let n := code c in
  ((9 <=? n) && (n <=? 13) || (28 <=? n) && (n <=? 32)
   || (n =? 133) || (n =? 160))%N.

(** [str.lower] on one character: A..Z, and the upper-case letters of
    Latin-1 (U+00C0..U+00DE but the multiplication sign U+00D7). *)
Definition lower_char (c : ascii) : ascii :=
  let n := code c in
  if ((65 <=? n) && (n <=? 90)
      || (192 <=? n) && (n <=? 222) && negb (n =? 215))%N
  then ascii_of_N (n + 32) else c.

(** [s.lower()] on a text of these characters, each of which has one
    character as its lower case; beyond U+00FF [str.lower] can lengthen
    a text (U+0130 becomes two characters). *)
Definition lower (s : pystr) : pystr := map lower_char s.

(** Equality of two characters under [re.IGNORECASE], which for these
    characters is the equality of their lower case. *)
Definition eq_ci (a b : ascii) : bool :=
  bool_decide (lower_char a = lower_char b).

Fixpoint drop_while {A} (p : A → bool) (l : list A) : list A :=
  match l with
  | [] => []
  | x :: l' => if p x then drop_while p l' else l
  end.

(** [s.lstrip()], [s.rstrip()] and [s.strip()] *)
Definition lstrip (s : pystr) : pystr := drop_while is_space s.
Definition rstrip (s : pystr) : pystr := reverse (lstrip (reverse s)).
Definition strip (s : pystr) : pystr := rstrip (lstrip s).

(** [s[a:b]] and [s[a:]] for indices that are not negative. *)
Definition slice {A} (a b : nat) (s : list A) : list A := drop a (take b s).
Definition slice_from {A} (a : nat) (s : list A) : list A := drop a s.

(** [s.startswith(sub)] *)
Fixpoint startswith (sub s : pystr) : bool :=
  match sub, s with
  | [], _ => true
  | _ :: _, [] => false
  | a :: sub', b :: s' => bool_decide (a = b) && startswith sub' s'
  end.

(** The lowest index [i] with [s[i:i+len(sub)] == sub], counted from
    [off], the position of [s] in the string it is a tail of. *)
Fixpoint find_at (sub s : pystr) (off : nat) : option nat :=
  if startswith sub s then Some off
  else match s with
       | [] => None
       | _ :: s' => find_at sub s' (S off)
       end.

(** [s.find(sub, start)] with [None] for -1: the lowest index not
    below [start] at which [sub] occurs; there is none when [start]
    is beyond the end of [s]. *)
Definition find (s sub : pystr) (start : nat) : option nat :=
  if decide (start ≤ length s)%nat then find_at sub (drop start s) start
  else None.

(** [sub in s] *)
Definition contains (sub s : pystr) : bool :=
  bool_decide (is_Some (find s sub 0)).

(** The text [s] occurs contiguously in [t]. *)
Definition substring_of (s t : pystr) : Prop :=
  ∃ pre post, t = pre ++ s ++ post.

End PyStr.

Import PyStr.

(** ** Exceptions

    The exceptions the embedded code can raise, and a result type for
    the code that raises and catches them. *)

Inductive exn : Set := ValueError | IndexError.

Inductive result (A : Type) : Type :=
| Ok (a : A)
| Raise (e : exn).
Arguments Ok {A} a.
Arguments Raise {A} e.

Definition bind {A B} (r : result A) (k : A → result B) : result B :=
  match r with
  | Ok a => k a
  | Raise e => Raise e
  end.

Notation "'let*' x ':=' r 'in' k" := (bind r (fun x => k))
  (at level 10, x name, r at level 100, k at level 200).

(** [try: body except (ValueError, IndexError): handler] *)
Definition try_except {A} (body : result A) (handler : result A) : result A :=
  match body with
  | Ok a => Ok a
  | Raise ValueError | Raise IndexError => handler
  end.

(** [try: body except ValueError: handler] *)
Definition try_except_ValueError {A} (body : result A) (handler : result A)
  : result A :=
  match body with
  | Ok a => Ok a
  | Raise ValueError => handler
  | Raise e => Raise e
  end.

(** [s.index(sub, start)]: as [find], raising [ValueError] for -1. *)
Definition str_index (s sub : pystr) (start : nat) : result nat :=
  match find s sub start with
  | Some i => Ok i
  | None => Raise ValueError
  end.

(** [l.index(x)] on a list of strings. *)
Fixpoint list_index_from (l : list pystr) (x : pystr) (i : nat) : result nat :=
  match l with
  | [] => Raise ValueError
  | y :: l' => if decide (y = x) then Ok i else list_index_from l' x (S i)
  end.

Definition list_index (l : list pystr) (x : pystr) : result nat :=
  list_index_from l x 0.

(** [l[i]] for an index that is not negative. *)
Definition list_get (l : list pystr) (i : nat) : result pystr :=
  match l !! i with
  | Some x => Ok x
  | None => Raise IndexError
  end.

(** ** Student classification (app.py, summarizer_backend.py) *)

Definition classify_student (marks : Z) : string :=
  if marks <? 50 then "Needs Improvement"
  else if (50 <=? marks) && (marks <? 70) then "Average"
  else if (70 <=? marks) && (marks <? 85) then "Good"
  else if (85 <=? marks) && (marks <? 95) then "Excellent"
  else "Advanced Learner".

(** The five levels of the specification and the labels the code uses
    for them. *)
Inductive StudentLevel : Set :=
| NeedsImprovement | Average | Good | Excellent | AdvancedLearner.

Definition level_label (l : StudentLevel) : string :=
  match l with
  | NeedsImprovement => "Needs Improvement"
  | Average => "Average"
  | Good => "Good"
  | Excellent => "Excellent"
  | AdvancedLearner => "Advanced Learner"
  end.

(** ** The weekly schedule (app.py, schedule.py)

    A subject is the dictionary [{"name": ..., "score": ...}] of the
    form; the schedule is the dictionary from the name of a day to the
    list of the tasks of that day. *)

Record topic : Type := Topic { name : pystr; score : Z }.

Definition week_days : list string :=
  ["Monday"; "Tuesday"; "Wednesday"; "Thursday"; "Friday"; "Saturday";
   "Sunday"].

(** [{day: [] for day in week_days}] *)
Definition empty_schedule {A} : gmap string (list A) :=
  list_to_map ((λ day, (day, [])) <$> week_days).

(** One round of the loop of either file, for the task [x] it has built:
    [day = week_days[i % len(week_days)]], [schedule[day].append(x)] and
    [i += 1]. *)
Definition append_task {A} (st : gmap string (list A) * nat) (x : A)
  : gmap string (list A) * nat :=
  let day := week_days !!! (st.2 mod length week_days)%nat in
  (<[day := st.1 !!! day ++ [x]]> st.1, S st.2).

(** [f"{duration} min"] *)
Definition minutes (duration : Z) : string := pretty duration +:+ " min".

(** ** app.py: the topic locator and the scheduler *)

Module App.

(** [get_text_for_topic(full_text, selected_topic, all_titles)]:
    the text from the first occurrence of the topic up to the first
    occurrence, after it, of the title that follows the topic in
    [all_titles]; the whole text for the entire-document choice and
    whenever a lookup fails. *)
Definition get_text_for_topic
    (full_text selected_topic : pystr) (all_titles : list pystr)
  : result pystr :=
  if bool_decide (selected_topic = [])
     || contains (str "entire document") (lower selected_topic)
  then Ok full_text
  else
    try_except
      (let* start_index :=
         str_index (lower full_text) (lower selected_topic) 0 in
       let end_index := length full_text in
       let* current_topic_index_in_titles :=
         list_index all_titles selected_topic in
       let* end_index :=
         if decide (current_topic_index_in_titles + 1 < length all_titles)%nat
         then
           let* next_topic :=
             list_get all_titles (current_topic_index_in_titles + 1) in
           try_except_ValueError
             (str_index (lower full_text) (lower next_topic)
                        (start_index + 1))
             (Ok end_index)
         else Ok end_index in
       Ok (slice start_index end_index full_text))
      (Ok full_text).

Definition assign_priority_and_duration (score : Z) : string * Z :=
  if 80 <=? score then ("Low", 30)
  else if 60 <=? score then ("Medium", 60)
  else ("High", 90).

Record task : Type := Task {
  task_topic : pystr;
  priority : string;
  recommended_duration : string
}.

(** The task the loop builds for one subject. *)
Definition task_of (t : topic) : task :=
  let '(priority, duration) := assign_priority_and_duration (score t) in
  {| task_topic := name t;
     priority := priority;
     recommended_duration := minutes duration |}.

(** [sorted(valid_topics, key=lambda x: x['score'])]: a stable sort,
    here by insertion from the right. *)
Fixpoint insert_by_score (t : topic) (l : list topic) : list topic :=
  match l with
  | [] => [t]
  | u :: l' =>
      if score t <=? score u then t :: u :: l'
      else u :: insert_by_score t l'
  end.

Definition sorted_by_score (l : list topic) : list topic :=
  foldr insert_by_score [] l.

(** [[topic for topic in scheduler_topics if topic["name"].strip()]] *)
Definition valid_topics (scheduler_topics : list topic) : list topic :=
  filter (λ t, strip (name t) ≠ []) scheduler_topics.

(** The loop over [sorted_topics]. *)
Definition assign_days (sorted_topics : list topic)
  : gmap string (list task) :=
  (fold_left (λ st t, append_task st (task_of t)) sorted_topics
             (empty_schedule, 0%nat)).1.

(** The submit handler of the scheduler tab: [None] is the warning
    that no subject has a name, otherwise the schedule displayed. *)
Definition generate_schedule (scheduler_topics : list topic)
  : option (gmap string (list task)) :=
  let valid_topics := valid_topics scheduler_topics in
  if bool_decide (valid_topics = []) then None
  else Some (assign_days (sorted_by_score valid_topics)).

End App.

(** ** The topic locator of summarizer_backend.py *)

Module SummarizerBackend.

(** *** The heading pattern

    [re.search(r'(?:^|\n|\r\n)\s*' + re.escape(lit) + r'[\s\.]*', text,
    re.IGNORECASE | re.MULTILINE)], as the backtracking matcher of [re]
    runs it: the start positions are tried from left to right, at each
    one the alternatives of the group in their order, [\s*] from its
    longest run down to the empty one, and [[\s\.]*] takes its longest
    run. *)

(** [s] starts with [lit], letter case ignored. *)
Fixpoint match_literal (lit s : pystr) : bool :=
  match lit, s with
  | [], _ => true
  | _ :: _, [] => false
  | a :: lit', b :: s' => eq_ci a b && match_literal lit' s'
  end.

(** The length of the longest prefix of [s] in the class [p]. *)
Fixpoint run_length (p : ascii → bool) (s : pystr) : nat :=
  match s with
  | [] => 0
  | c :: s' => if p c then S (run_length p s') else 0
  end.

Definition is_space_or_dot (c : ascii) : bool :=
  is_space c || bool_decide (c = DOT).

(** [\s*] has taken [k] characters of [s]; the literal and the final
    class follow, or [\s*] gives one character back. The result is
    the length of the text matched. *)
Fixpoint match_body_from (lit s : pystr) (k : nat) : option nat :=
  if match_literal lit (drop k s)
  then Some (k + length lit
             + run_length is_space_or_dot (drop (k + length lit) s))%nat
  else match k with
       | O => None
       | S k' => match_body_from lit s k'
       end.

(** [\s*LIT[\s\.]*] at the start of [s]. *)
Definition match_body (lit s : pystr) : option nat :=
  match_body_from lit s (run_length is_space s).

(** [^] under [re.MULTILINE]: at the start of the text and after each
    line feed. [prev] is the character before the position. *)
Definition at_line_start (prev : option ascii) : bool :=
  match prev with
  | None => true
  | Some c => bool_decide (c = LF)
  end.

Definition or_else {A} (a b : option A) : option A :=
  match a with
  | Some x => Some x
  | None => b
  end.

(** The whole pattern at one position: the length of the match. *)
Definition match_here (lit : pystr) (prev : option ascii) (s : pystr)
  : option nat :=
  or_else (if at_line_start prev then match_body lit s else None)
 (or_else (match s with
           | c :: s' =>
               if bool_decide (c = LF) then S <$> match_body lit s' else None
           | [] => None
           end)
          (match s with
           | c :: d :: s' =>
               if bool_decide (c = CR) && bool_decide (d = LF)
               then (λ n, S (S n)) <$> match_body lit s' else None
           | _ => None
           end)).

(** The leftmost match in [s], which stands at position [pos] of the
    text searched: its [start()] and its [end()]. *)
Fixpoint search_from (lit : pystr) (prev : option ascii) (s : pystr)
    (pos : nat) : option (nat * nat) :=
  match match_here lit prev s with
  | Some n => Some (pos, (pos + n)%nat)
  | None =>
      match s with
      | [] => None
      | c :: s' => search_from lit (Some c) s' (S pos)
      end
  end.

(** [re.search(heading pattern of title, text, IGNORECASE | MULTILINE)] *)
Definition heading_search (title text : pystr) : option (nat * nat) :=
  search_from (strip title) None text 0.

(** *** The locator *)

(** The loop over [all_titles]: the end of the section, [Some] for the
    [break]; [None] leaves [end_idx_content] as it was. *)
Fixpoint scan_titles (full_text selected_topic : pystr)
    (start_idx_content : nat) (titles : list pystr)
    (current_topic_found : bool) : option nat :=
  match titles with
  | [] => None
  | title :: rest =>
      if bool_decide (lower (strip title) = lower (strip selected_topic))
      then scan_titles full_text selected_topic start_idx_content rest true
      else if current_topic_found then
        match heading_search title (slice_from start_idx_content full_text) with
        | Some (s, _) => Some (start_idx_content + s)%nat
        | None =>
            scan_titles full_text selected_topic start_idx_content rest
                        current_topic_found
        end
      else scan_titles full_text selected_topic start_idx_content rest
                       current_topic_found
  end.

(** [extracted_section], when the start of the topic is found. *)
Definition extracted_section
    (full_text selected_topic : pystr) (all_titles : list pystr)
  : option pystr :=
  match heading_search selected_topic full_text with
  | None => None
  | Some (_, start_idx_content) =>
      let end_idx_content :=
        default (length full_text)
          (scan_titles full_text selected_topic start_idx_content
                       all_titles false) in
      Some (strip (slice start_idx_content end_idx_content full_text))
  end.

Definition get_text_for_topic
    (full_text selected_topic : pystr) (all_titles : list pystr) : pystr :=
  if bool_decide (selected_topic = []) || bool_decide (all_titles = [])
     || bool_decide (full_text = [])
  then full_text
  else
    match extracted_section full_text selected_topic all_titles with
    | None => full_text
    | Some extracted_section =>
        if (length extracted_section <? 50)%nat
           && (100 <? length full_text)%nat
        then full_text
        else extracted_section
    end.

End SummarizerBackend.


(** ** schedule.py: the stand-alone scheduler *)

Module Schedule.

Definition assign_priority_and_duration (score : Z) : string * Z :=
  if 80 <=? score then ("Easy", 30)
  else if 60 <=? score then ("Medium", 60)
  else ("Hard", 90).

Record task : Type := Task {
  task_topic : pystr;
  task_score : Z;
  priority : string;
  recommended_duration : string
}.

Definition task_of (t : topic) : task :=
  let '(priority, duration) := assign_priority_and_duration (score t) in
  {| task_topic := name t;
     task_score := score t;
     priority := priority;
     recommended_duration := minutes duration |}.

(** The loop over [topics], in the order of the form: a subject whose
    name is empty is passed over and takes no day. *)
Definition generate_schedule (topics : list topic) : gmap string (list task) :=
  (fold_left (λ st t, if bool_decide (name t ≠ [])
                      then append_task st (task_of t) else st)
             topics (empty_schedule, 0%nat)).1.

End Schedule.

(** ** qna.py: the validation of generated questions *)

Module Qna.

(** The values [json.loads] returns. *)
Inductive json : Type :=
| JNull
| JBool (b : bool)
| JNumber (z : Z)
| JString (s : string)
| JArray (items : list json)
| JObject (fields : list (string * json)).

(** [isinstance(q, str)], [isinstance(q, dict)] and [key in q] *)
Definition is_str (q : json) : bool :=
  match q with JString _ => true | _ => false end.

Definition is_dict (q : json) : bool :=
  match q with JObject _ => true | _ => false end.

Definition has_key (key : string) (q : json) : bool :=
  match q with
  | JObject fields => bool_decide (key ∈ fields.*1)
  | _ => false
  end.

(** [isinstance(q, dict) and k1 in q and ... for every k of keys] *)
Definition dict_with (keys : list string) (q : json) : bool :=
  is_dict q && forallb (λ key, has_key key q) keys.

(** [generate_questions] after the call of the model: [questions] is
    the text of the response parsed by [json.loads], [None] when there
    is no response, no text part in it, or the text is not JSON. The
    last case is the early return for an unknown question type. *)
Definition generate_questions (question_type : string)
    (questions : option json) : list json :=
  match questions with
  | None => []
  | Some (JArray questions) =>
      if bool_decide (question_type = "open-ended") then
        if forallb is_str questions then questions else []
      else if bool_decide (question_type = "mcq") then
        if forallb (dict_with ["question"; "options"; "correct_answer"])
                   questions
        then questions else []
      else if bool_decide (question_type = "true/false") then
        if forallb (dict_with ["statement"; "correct_answer"]) questions
        then questions else []
      else if bool_decide (question_type = "fill-in-the-blanks") then
        if forallb (dict_with ["question"; "correct_answer"]) questions
        then questions else []
      else if bool_decide (question_type = "mixed") then questions
      else []
  | Some _ => []
  end.

End Qna.

(** ** Sample documents *)

Definition nl : pystr := [LF].

(** ** The heading pattern, read as a relation

    What it is for the pattern of [SummarizerBackend.match_here] to
    match [n] characters of [s], where [prev] is the character before
    [s]: the group takes [a] characters, [\s*] takes [w], the literal
    follows and the final class takes its longest run. *)

Definition boundary (prev : option ascii) (s : pystr) (a : nat) : Prop :=
  (a = 0%nat ∧ SummarizerBackend.at_line_start prev = true) ∨
  (a = 1%nat ∧ s !! 0%nat = Some LF) ∨
  (a = 2%nat ∧ s !! 0%nat = Some CR ∧ s !! 1%nat = Some LF).

Definition body_match (lit s : pystr) (n : nat) : Prop :=
  ∃ w, (w ≤ SummarizerBackend.run_length is_space s)%nat ∧
       SummarizerBackend.match_literal lit (drop w s) = true ∧
       n = (w + length lit
            + SummarizerBackend.run_length SummarizerBackend.is_space_or_dot
                (drop (w + length lit) s))%nat.

Definition pattern_match_here (lit : pystr) (prev : option ascii) (s : pystr)
    (n : nat) : Prop :=
  ∃ a m, boundary prev s a ∧ body_match lit (drop a s) m ∧ n = (a + m)%nat.

(** The character before position [p] of a text that follows [prev]. *)
Definition char_before (prev : option ascii) (text : pystr) (p : nat)
  : option ascii :=
  match p with
  | O => prev
  | S p' => text !! p'
  end.

(** The pattern of the literal [lit] matches [text[p:e]]. *)
Definition pattern_match (lit text : pystr) (p e : nat) : Prop :=
  (p ≤ length text)%nat ∧ (p ≤ e)%nat ∧
  pattern_match_here lit (char_before None text p) (drop p text) (e - p).

(** Two titles are the same heading for the loop of the locator. *)
Definition same_title (title selected_topic : pystr) : Prop :=
  lower (strip title) = lower (strip selected_topic).

#[global] Instance same_title_dec (title selected_topic : pystr) :
  Decision (same_title title selected_topic) :=
  decide (lower (strip title) = lower (strip selected_topic)).

(** The first of the titles [rest] that is not the selected topic and
    whose pattern matches in [tail], with its position in [rest]. *)
Definition first_later_heading (selected_topic tail : pystr)
    (rest : list pystr) : option (nat * pystr) :=
  list_find (λ title, ¬ same_title title selected_topic ∧
                      is_Some (SummarizerBackend.heading_search title tail))
            rest.

(** Where the section that starts at [e] ends: where the match of that
    title starts, at the end of the text when there is none. *)
Definition section_end (full_text selected_topic : pystr) (e : nat)
    (rest : list pystr) : nat :=
  match first_later_heading selected_topic (drop e full_text) rest with
  | Some (_, title) =>
      match SummarizerBackend.heading_search title (drop e full_text) with
      | Some (s, _) => (e + s)%nat
      | None => length full_text
      end
  | None => length full_text
  end.

(** ["Intro\nhello\nOutro\nbye"]: a document without the second of
    the headings Intro, Missing, Outro. *)
Definition gap_doc : pystr :=
  str "Intro" ++ nl ++ str "hello" ++ nl ++ str "Outro" ++ nl ++ str "bye".

(** ["Intro\nhello world\nChapter2\nbye"] *)
Definition intro_doc : pystr :=
  str "Intro" ++ nl ++ str "hello world" ++ nl ++ str "Chapter2" ++ nl
  ++ str "bye".

(** The same document with a last line of 100 characters. *)
Definition long_doc : pystr := intro_doc ++ replicate 100 "x"%char.

(** ** Sample quiz output *)

(** An item of a multiple-choice quiz as the specification wants it:
    an object with the three fields. *)
Definition mcq_item (q : Qna.json) : Prop :=
  ∃ fields, q = Qna.JObject fields ∧
    "question"%string ∈ fields.*1 ∧ "options"%string ∈ fields.*1 ∧
    "correct_answer"%string ∈ fields.*1.

Definition sample_mcq (answer_key : string) : Qna.json :=
  Qna.JObject
    [("question"%string, Qna.JString "2 + 2 = ?");
     ("options"%string,
      Qna.JArray [Qna.JString "3"; Qna.JString "4"; Qna.JString "5";
                  Qna.JString "22"]);
     (answer_key, Qna.JString "B")].

(** ** Sample subjects *)

(** [[("Math", 40), ("Art", 90), ("Bio", 65)]] *)
Definition sample_subjects : list topic :=
  [Topic (str "Math") 40; Topic (str "Art") 90; Topic (str "Bio") 65].

(** ** app.py: the form of the scheduler tab *)

Module AppSchedulerForm.

(** [{"name": "", "score": 75}] *)
Definition blank_topic : topic := Topic [] 75.

(** The list the session starts with. *)
Definition initial_topics : list topic := replicate 3 blank_topic.

(** The list follows the number of subjects asked for: blank entries
    are appended, or the list is cut. *)
Definition adjust_topics (num_topics : nat) (scheduler_topics : list topic)
  : list topic :=
  if decide (length scheduler_topics < num_topics)%nat
  then scheduler_topics
       ++ replicate (num_topics - length scheduler_topics) blank_topic
  else if decide (num_topics < length scheduler_topics)%nat
       then take num_topics scheduler_topics
       else scheduler_topics.

(** The days the schedule shows as a rest day: those without a task. *)
Definition rest_days (schedule : gmap string (list App.task)) : list string :=
  filter (λ day, schedule !!! day = []) week_days.

End AppSchedulerForm.

(** ** schedule.py: the table *)

Module ScheduleTable.

(** The rows of the table, in the order of the days of the schedule: a
    row for each task of a day, a row of dashes for a day without. *)
Definition table_data (schedule : gmap string (list Schedule.task))
  : list (list string) :=
  week_days ≫= λ day,
    match schedule !!! day with
    | [] => [[day; "—"; "—"; "—"; "—"]]
    | tasks =>
        (λ task, [day; string_of_list_ascii (Schedule.task_topic task);
                  Schedule.priority task; Schedule.recommended_duration task;
                  pretty (Schedule.task_score task) +:+ "%"]) <$> tasks
    end.

End ScheduleTable.

(** The rank of a level, from the weakest up. *)
Definition level_rank (l : StudentLevel) : nat :=
  match l with
  | NeedsImprovement => 0
  | Average => 1
  | Good => 2
  | Excellent => 3
  | AdvancedLearner => 4
  end.

(** ** Python values: what the code does with parsed JSON *)

Module PyVal.
Import Qna.

(** The exceptions of these operations. *)
Inductive error : Set := KeyError | TypeError | AttributeError | IndexError.

Inductive outcome (A : Type) : Type :=
| Returns (a : A)
| Raises (e : error).
Arguments Returns {A} a.
Arguments Raises {A} e.

(** [bool(v)] *)
Definition truthy (v : json) : bool :=
  match v with
  | JNull => false
  | JBool b => b
  | JNumber z => negb (z =? 0)
  | JString s => negb (bool_decide (s = ""%string))
  | JArray items => negb (bool_decide (length items = 0%nat))
  | JObject fields => negb (bool_decide (length fields = 0%nat))
  end.

(** The value of a key among the items of a dictionary. *)
Fixpoint assoc (key : string) (fields : list (string * json)) : option json :=
  match fields with
  | [] => None
  | (k, v) :: rest => if decide (k = key) then Some v else assoc key rest
  end.

(** [v[key]] for a key that is a text. *)
Definition getitem (key : string) (v : json) : outcome json :=
  match v with
  | JObject fields =>
      match assoc key fields with
      | Some x => Returns x
      | None => Raises KeyError
      end
  | _ => Raises TypeError
  end.

(** [key in v] for a key that is a text: a key of a dictionary, an item
    of a list, a part of a text; the other values are not containers. *)
Definition py_in (key : string) (v : json) : outcome bool :=
  match v with
  | JObject fields => Returns (bool_decide (key ∈ fields.*1))
  | JArray items =>
      Returns (existsb (λ x, match x with
                             | JString s => bool_decide (s = key)
                             | _ => false
                             end) items)
  | JString s => Returns (contains (str key) (str s))
  | _ => Raises TypeError
  end.

(** [all(key in v for key in keys)] *)
Fixpoint all_in (keys : list string) (v : json) : outcome bool :=
  match keys with
  | [] => Returns true
  | key :: keys' =>
      match py_in key v with
      | Returns true => all_in keys' v
      | Returns false => Returns false
      | Raises e => Raises e
      end
  end.

End PyVal.

(** ** qna.py: the validation of the evaluation *)

Module QnaEvaluate.
Import Qna PyVal.

(** [evaluate_answer] after the call of the model: [feedback_data] is
    the text of the response parsed by [json.loads], [None] when there
    is no response, no text part in it, or the text is not JSON, the
    cases in which the function returns [None]. A [TypeError] of the
    test of the keys is not caught. *)
Definition evaluate_answer (feedback_data : option json)
  : outcome (option json) :=
  match feedback_data with
  | None => Returns None
  | Some feedback_data =>
      match all_in ["score"; "feedback"; "correct_answer"]%string
                   feedback_data with
      | Returns true => Returns (Some feedback_data)
      | Returns false => Returns None
      | Raises e => Raises e
      end
  end.

End QnaEvaluate.

(** ** qna.py: the quiz loop of the main program *)

Module QnaMain.
Import Qna PyVal.

(** [v.get(key, default)] *)
Definition py_get (key : string) (default : json) (v : json) : outcome json :=
  match v with
  | JObject fields =>
      match assoc key fields with
      | Some x => Returns x
      | None => Returns default
      end
  | _ => Raises AttributeError
  end.

(** [v == text] for a text. *)
Definition is_text (text : string) (v : json) : bool :=
  match v with
  | JString s => bool_decide (s = text)
  | _ => false
  end.

(** The values a [for] loop can run over. *)
Definition iterable (v : json) : bool :=
  match v with
  | JString _ | JArray _ | JObject _ => true
  | _ => false
  end.

(** What the loop does to print the question [q_data]: for a mixed
    quiz the type is read from the question; then the fields of that
    type are read, and the options run over. *)
Definition show_question (selected_question_type : string) (q_data : json)
  : outcome unit :=
  match (if bool_decide (selected_question_type = "mixed")
         then py_get "type" (JString "open-ended") q_data
         else Returns (JString selected_question_type)) with
  | Raises e => Raises e
  | Returns current_question_type =>
      if is_text "mcq" current_question_type then
        match getitem "question" q_data with
        | Raises e => Raises e
        | Returns _ =>
            match getitem "options" q_data with
            | Raises e => Raises e
            | Returns options =>
                if iterable options then Returns () else Raises TypeError
            end
        end
      else if is_text "true/false" current_question_type then
        match getitem "statement" q_data with
        | Raises e => Raises e
        | Returns _ => Returns ()
        end
      else if is_text "fill-in-the-blanks" current_question_type then
        match getitem "question" q_data with
        | Raises e => Raises e
        | Returns _ => Returns ()
        end
      else
        match q_data with
        | JString _ => Returns ()
        | _ =>
            match py_get "question" (JString "N/A") q_data with
            | Raises e => Raises e
            | Returns _ => Returns ()
            end
        end
  end.

End QnaMain.

(** ** app.py: the titles, the summary and the chat *)

Module AppFunctions.
Import Qna PyVal.

(** The dictionary [call_gemini_api] returns for a call without a
    schema: [{"candidates": [{"content": {"parts": [{"text": ...}]}}]}]. *)
Record part : Type := Part { text : pystr }.
Record content_t : Type := Content { parts : list part }.
Record candidate : Type := Candidate { content : content_t }.
Record response : Type := Response { candidates : list candidate }.

(** A message of the chat: [{"role": ..., "content": ...}]. *)
Record message : Type := Message { role : string; msg_content : pystr }.

Section Gemini.

(** The model: the text of [model.generate_content(contents, ...)] for
    the file part, the prompt and the schema given, [None] when the
    call raises. [json.loads], [None] when it raises. The key. *)
Variable generate_content : option pystr → pystr → option json → option pystr.
Variable json_loads : pystr → option json.
Variable GEMINI_API_KEY : pystr.

(** [call_gemini_api(prompt, None, file_part)] *)
Definition call_gemini_api_text (prompt : pystr) (file_part : option pystr)
  : option response :=
  if bool_decide (GEMINI_API_KEY = [])
     || contains (str "YOUR_API_KEY") GEMINI_API_KEY
  then None
  else
    match generate_content file_part prompt None with
    | Some response_text =>
        Some {| candidates :=
                  [{| content := {| parts := [{| text := response_text |}] |} |}] |}
    | None => None
    end.

(** [call_gemini_api(prompt, response_schema, file_part)] with a
    schema. *)
Definition call_gemini_api_json (prompt : pystr) (response_schema : json)
    (file_part : option pystr) : option json :=
  if bool_decide (GEMINI_API_KEY = [])
     || contains (str "YOUR_API_KEY") GEMINI_API_KEY
  then None
  else
    match generate_content file_part prompt (Some response_schema) with
    | Some response_text => json_loads response_text
    | None => None
    end.

(** [l[0]] *)
Definition first {A} (l : list A) : outcome A :=
  match l with
  | x :: _ => Returns x
  | [] => Raises IndexError
  end.

(** [result["candidates"][0]["content"]["parts"][0].get("text", ...)] *)
Definition response_text (result : response) : outcome pystr :=
  match first (candidates result) with
  | Returns c =>
      match first (parts (content c)) with
      | Returns p => Returns (text p)
      | Raises e => Raises e
      end
  | Raises e => Raises e
  end.

Definition titles_prompt : pystr :=
  str "Analyze the provided PDF document. Identify and list all the main section titles or prominent headings that structure the content, like a Table of Contents. Exclude page numbers and minor subheadings. Return the output as a JSON array of strings.".

Definition titles_schema : json :=
  JObject [("type"%string, JString "ARRAY");
           ("items"%string, JObject [("type"%string, JString "STRING")])].

(** [[t.strip() for t in result_json
      if isinstance(t, str) and len(t.strip()) > 3]] *)
Definition clean_titles (min_length : nat) (items : list json) : list pystr :=
  omap (λ t, match t with
             | JString s =>
                 if (min_length <? length (strip (str s)))%nat
                 then Some (strip (str s)) else None
             | _ => None
             end) items.

Definition extract_titles_from_pdf_multimodal (pdf_file_part : pystr)
  : list pystr :=
  match call_gemini_api_json titles_prompt titles_schema (Some pdf_file_part) with
  | Some (JArray items) => clean_titles 3 items
  | _ => []
  end.

(** The two dictionaries of [summarize_text_with_gemini]. *)
Definition prompts : gmap string string :=
  list_to_map
    [("quick", "Summarize the following text very briefly, highlighting only the main points.");
     ("medium", "Summarize the following text concisely and accurately.");
     ("detailed", "Provide a detailed summary of the following text, covering all key aspects and supporting details.")]%string.

Definition personalization_prompts : gmap string string :=
  list_to_map
    [("Needs Improvement", " Make the language very simple and easy to understand. Avoid complex jargon.");
     ("Average", " Use clear and straightforward language. Briefly explain difficult terms.");
     ("Good", " Use standard academic language with good detail.");
     ("Excellent", " Use precise and technical terminology where appropriate.");
     ("Advanced Learner", " Provide a highly detailed and nuanced summary, using advanced terminology and exploring subtle implications.")]%string.

(** [base_prompt], with the clause of the level when there is one. *)
Definition base_prompt (summary_type : pystr)
    (student_classification : option string) : string :=
  let base_prompt :=
    default (prompts !!! "medium"%string)
            (prompts !! string_of_list_ascii (lower summary_type)) in
  match student_classification ≫= (personalization_prompts !!.) with
  | Some clause => base_prompt +:+ clause
  | None => base_prompt
  end.

Definition summary_prompt (text_to_summarize summary_type : pystr)
    (student_classification : option string) : pystr :=
  str (base_prompt summary_type student_classification)
  ++ [LF; LF] ++ str "Text to summarize:" ++ [LF] ++ text_to_summarize.

Definition summarize_text_with_gemini (text_to_summarize summary_type : pystr)
    (student_classification : option string) : outcome pystr :=
  if bool_decide (strip text_to_summarize = [])
  then Returns (str "Error: No text was provided for summarization.")
  else
    match call_gemini_api_text
            (summary_prompt text_to_summarize summary_type
                            student_classification) None with
    | Some result => response_text result
    | None => Returns (str "Error generating summary.")
    end.

(** [sep.join(l)] *)
Fixpoint join (sep : pystr) (l : list pystr) : pystr :=
  match l with
  | [] => []
  | [x] => x
  | x :: l' => x ++ sep ++ join sep l'
  end.

Definition chatbot_prompt (user_input : pystr) (chat_history : list message)
    (context_text : pystr) : pystr :=
  let history_prompt :=
    join [LF] ((λ msg, str (role msg) ++ str ": " ++ msg_content msg)
               <$> chat_history) in
  str "You are a helpful assistant. Your knowledge is based on the following document text. "
  ++ str "Answer the user's question based on this text and the conversation history."
  ++ [LF; LF]
  ++ str "--- Document Context ---" ++ [LF] ++ context_text ++ [LF; LF]
  ++ str "--- Conversation History ---" ++ [LF] ++ history_prompt ++ [LF; LF]
  ++ str "User: " ++ user_input ++ [LF] ++ str "AI:".

Definition get_chatbot_response (user_input : pystr)
    (chat_history : list message) (context_text : pystr) : outcome pystr :=
  match call_gemini_api_text
          (chatbot_prompt user_input chat_history context_text) None with
  | Some result => response_text result
  | None => Returns (str "Connection error.")
  end.

(** One message typed into the chat, if it is not empty: the message
    of the user is added to the history, the answer is asked for with
    that history, and added in turn; an exception ends the run
    before. *)
Definition chat_turn (pdf_text prompt : pystr) (chat_history : list message)
  : list message :=
  if bool_decide (prompt = []) then chat_history
  else
    let chat_history := chat_history ++ [Message "user" prompt] in
    match get_chatbot_response prompt chat_history pdf_text with
    | Returns response => chat_history ++ [Message "assistant" response]
    | Raises _ => chat_history
    end.

End Gemini.

End AppFunctions.

(** ** app.py: the quiz *)

Module AppQuiz.
Import Qna PyVal.

(** The quiz of the session. *)
Record quiz_state : Type := QuizState {
  questions : list json;
  current_question_index : nat;
  user_score : nat
}.

(** What the user does: submits the form of the current question, with
    the type of question selected at that time and the answer given
    ([None] when no option is chosen), or asks to retake the quiz. *)
Inductive event : Type :=
| Submit (question_type : string) (user_answer : option pystr)
| Retake.

Section Quiz.

(** [str(v)] of a list or a dictionary. *)
Variable py_repr : json → pystr.

(** [str(v)] *)
Definition py_str (v : json) : pystr :=
  match v with
  | JNull => str "None"
  | JBool true => str "True"
  | JBool false => str "False"
  | JNumber z => str (pretty z)
  | JString s => str s
  | _ => py_repr v
  end.

(** The button that generates a quiz, from what [generate_questions]
    has returned: the quiz is reset, and the questions are kept when
    they are a list that is not empty. *)
Definition generate_quiz (generated : option json) : quiz_state :=
  match generated with
  | Some (JArray items) =>
      if truthy (JArray items) then QuizState items 0 0 else QuizState [] 0 0
  | _ => QuizState [] 0 0
  end.

(** What the form reads of the question to show it. *)
Definition show_question (question_type : string) (q : json) : outcome unit :=
  if bool_decide (question_type = "mcq") then
    match getitem "question" q with
    | Returns _ =>
        match getitem "options" q with
        | Returns _ => Returns ()
        | Raises e => Raises e
        end
    | Raises e => Raises e
    end
  else if bool_decide (question_type = "true/false") then
    match getitem "statement" q with
    | Returns _ => Returns ()
    | Raises e => Raises e
    end
  else Returns ().

(** [is_correct] for the answer given, a text: the options of a
    multiple-choice question are texts by the schema, and the other
    forms return texts. *)
Definition is_correct (question_type : string) (user_answer : pystr) (q : json)
  : outcome bool :=
  if bool_decide (question_type = "mcq") then
    match getitem "correct_answer" q with
    | Returns (JString s) => Returns (bool_decide (user_answer = str s))
    | Returns _ => Returns false
    | Raises e => Raises e
    end
  else if bool_decide (question_type = "true/false") then
    match getitem "correct_answer" q with
    | Returns v => Returns (bool_decide (lower user_answer = lower (py_str v)))
    | Raises e => Raises e
    end
  else Returns false.

(** The form of the current question, submitted. *)
Definition submit_answer (question_type : string) (user_answer : option pystr)
    (st : quiz_state) : outcome quiz_state :=
  match questions st !! current_question_index st with
  | Some q =>
      match show_question question_type q with
      | Returns _ =>
          match user_answer with
          | Some answer =>
              match is_correct question_type answer q with
              | Returns correct =>
                  Returns {| questions := questions st;
                             current_question_index :=
                               current_question_index st + 1;
                             user_score :=
                               if correct then user_score st + 1
                               else user_score st |}
              | Raises e => Raises e
              end
          | None => Returns st
          end
      | Raises e => Raises e
      end
  | None => Returns st
  end.

(** The button shown when the quiz is complete. *)
Definition retake (st : quiz_state) : quiz_state :=
  if bool_decide (questions st ≠ [])
     && bool_decide (length (questions st) ≤ current_question_index st)%nat
  then {| questions := questions st;
          current_question_index := 0;
          user_score := 0 |}
  else st.

(** One run of the script on an event; an exception ends the run and
    leaves the session as it was. *)
Definition step (st : quiz_state) (ev : event) : quiz_state :=
  match ev with
  | Submit question_type user_answer =>
      match submit_answer question_type user_answer st with
      | Returns st' => st'
      | Raises _ => st
      end
  | Retake => retake st
  end.

Definition run (evs : list event) (st : quiz_state) : quiz_state :=
  fold_left step evs st.

End Quiz.

(** An event of a quiz whose questions are neither multiple choice nor
    true/false. *)
Definition open_ended (ev : event) : Prop :=
  match ev with
  | Submit question_type _ =>
      question_type ≠ "mcq"%string ∧ question_type ≠ "true/false"%string
  | Retake => True
  end.

(** An event of a quiz of multiple-choice or true/false questions. *)
Definition graded (ev : event) : Prop :=
  match ev with
  | Submit question_type _ =>
      question_type = "mcq"%string ∨ question_type = "true/false"%string
  | Retake => True
  end.

End AppQuiz.

(** ** Sample answers of the model *)

(** A model that answers every call with the text ["  Introduction  "],
    and a parser that reads any text as a list of three values. *)
Definition sample_generate_content (file_part : option pystr) (prompt : pystr)
    (response_schema : option Qna.json) : option pystr :=
  Some (str "  Introduction  ").

Definition sample_json_loads (text : pystr) : option Qna.json :=
  Some (Qna.JArray [Qna.JString "  Introduction  "; Qna.JString " ab ";
                    Qna.JNumber 3]).

Definition sample_key : pystr := str "key".

(** ** summarizer_backend.py: the text the main program summarizes *)

Module SummarizerBackendMain.

(** The choice of the text, for the number [topic_idx] the user has
    typed: [None] is the message that the choice is invalid, after
    which the question is asked again. Without titles nothing is asked
    and the whole document is taken. *)
Definition summarize_for_text (extracted_text : pystr)
    (extracted_titles : list pystr) (topic_idx : Z) : option pystr :=
  if bool_decide (extracted_titles = []) then Some extracted_text
  else if bool_decide (topic_idx = 0) then Some extracted_text
  else if bool_decide (1 ≤ topic_idx ≤ Z.of_nat (length extracted_titles)) then
    match extracted_titles !! Z.to_nat (topic_idx - 1) with
    | Some selected_topic_title =>
        let temp_text :=
          SummarizerBackend.get_text_for_topic extracted_text
            selected_topic_title extracted_titles in
        if bool_decide (temp_text ≠ []) && (50 <? length (strip temp_text))%nat
        then Some temp_text
        else Some extracted_text
    | None => None
    end
  else None.

End SummarizerBackendMain.

(** ** app.py: the topic locator over any characters

    The locator of [App] once more, for texts of any characters, with
    [str.lower] as it is on such texts: a function on whole texts,
    which may change their length (U+0130 becomes two characters). At
    the 8-bit characters and [PyStr.lower] it is [App.get_text_for_topic]. *)

Module AppUnicode.

Section Locator.
Context {char : Type} `{!EqDecision char}.

(** [s.lower()] and the text ["entire document"]. *)
Variable lower : list char → list char.
Variable entire_document : list char.

Fixpoint startswith (sub s : list char) : bool :=
  match sub, s with
  | [], _ => true
  | _ :: _, [] => false
  | a :: sub', b :: s' => bool_decide (a = b) && startswith sub' s'
  end.

Fixpoint find_at (sub s : list char) (off : nat) : option nat :=
  if startswith sub s then Some off
  else match s with
       | [] => None
       | _ :: s' => find_at sub s' (S off)
       end.

Definition find (s sub : list char) (start : nat) : option nat :=
  if decide (start ≤ length s)%nat then find_at sub (drop start s) start
  else None.

Definition contains (sub s : list char) : bool :=
  bool_decide (is_Some (find s sub 0)).

Definition str_index (s sub : list char) (start : nat) : result nat :=
  match find s sub start with
  | Some i => Ok i
  | None => Raise ValueError
  end.

Fixpoint list_index_from (l : list (list char)) (x : list char) (i : nat)
  : result nat :=
  match l with
  | [] => Raise ValueError
  | y :: l' => if decide (y = x) then Ok i else list_index_from l' x (S i)
  end.

Definition list_index (l : list (list char)) (x : list char) : result nat :=
  list_index_from l x 0.

Definition list_get (l : list (list char)) (i : nat) : result (list char) :=
  match l !! i with
  | Some x => Ok x
  | None => Raise IndexError
  end.

Definition get_text_for_topic
    (full_text selected_topic : list char) (all_titles : list (list char))
  : result (list char) :=
  if bool_decide (selected_topic = [])
     || contains entire_document (lower selected_topic)
  then Ok full_text
  else
    try_except
      (let* start_index :=
         str_index (lower full_text) (lower selected_topic) 0 in
       let end_index := length full_text in
       let* current_topic_index_in_titles :=
         list_index all_titles selected_topic in
       let* end_index :=
         if decide (current_topic_index_in_titles + 1 < length all_titles)%nat
         then
           let* next_topic :=
             list_get all_titles (current_topic_index_in_titles + 1) in
           try_except_ValueError
             (str_index (lower full_text) (lower next_topic)
                        (start_index + 1))
             (Ok end_index)
         else Ok end_index in
       Ok (slice start_index end_index full_text))
      (Ok full_text).

End Locator.

End AppUnicode.

(** * Properties *)

(** ** Thresholds *)

(** C2. The priority and the duration of a subject follow its score:
    Low and 30 minutes from 80 up, Medium and 60 minutes from 60 to
    below 80, High and 90 minutes below 60. *)
Theorem assign_priority_and_duration_thresholds (score : Z) :
  (80 ≤ score → App.assign_priority_and_duration score = ("Low", 30)) ∧
  (60 ≤ score < 80 → App.assign_priority_and_duration score = ("Medium", 60)) ∧
  (score < 60 → App.assign_priority_and_duration score = ("High", 90)).
Proof.
  unfold App.assign_priority_and_duration.
  repeat split; intros ?; repeat case_match; (reflexivity || lia).
Qed.

Lemma assign_priority_and_duration_thresholds_witness :
  App.assign_priority_and_duration 85 = ("Low", 30) ∧
  App.assign_priority_and_duration 70 = ("Medium", 60) ∧
  App.assign_priority_and_duration 40 = ("High", 90).
Proof.
  split; [|split].
  - apply (assign_priority_and_duration_thresholds 85); lia.
  - apply (assign_priority_and_duration_thresholds 70); lia.
  - apply (assign_priority_and_duration_thresholds 40); lia.
Defined.

(** schedule.py keeps the thresholds and the durations of app.py and
    names the priorities Easy, Medium and Hard. *)
Lemma schedule_py_durations (score : Z) :
  (Schedule.assign_priority_and_duration score).2
  = (App.assign_priority_and_duration score).2.
Proof.
  unfold Schedule.assign_priority_and_duration,
    App.assign_priority_and_duration.
  repeat case_match; reflexivity.
Qed.

Lemma schedule_py_labels (score : Z) :
  (Schedule.assign_priority_and_duration score).1 =
  if 80 <=? score then "Easy" else if 60 <=? score then "Medium" else "Hard".
Proof.
  unfold Schedule.assign_priority_and_duration.
  repeat case_match; reflexivity.
Qed.

Lemma classify_student_is_level (marks : Z) :
  ∃ level, classify_student marks = level_label level.
Proof.
  unfold classify_student.
  destruct (marks <? 50); [by exists NeedsImprovement|].
  destruct ((50 <=? marks) && (marks <? 70)); [by exists Average|].
  destruct ((70 <=? marks) && (marks <? 85)); [by exists Good|].
  destruct ((85 <=? marks) && (marks <? 95)); [by exists Excellent|].
  by exists AdvancedLearner.
Qed.

(** C7. [classify_student] has five levels, cut at 50, 70, 85 and 95;
    45 is Needs Improvement, 92 is Excellent and 97 is Advanced
    Learner. *)
Theorem classify_student_levels (marks : Z) :
  (marks < 50 → classify_student marks = level_label NeedsImprovement) ∧
  (50 ≤ marks < 70 → classify_student marks = level_label Average) ∧
  (70 ≤ marks < 85 → classify_student marks = level_label Good) ∧
  (85 ≤ marks < 95 → classify_student marks = level_label Excellent) ∧
  (95 ≤ marks → classify_student marks = level_label AdvancedLearner) ∧
  (∃ level, classify_student marks = level_label level) ∧
  classify_student 45 = "Needs Improvement"%string ∧
  classify_student 92 = "Excellent"%string ∧
  classify_student 97 = "Advanced Learner"%string.
Proof.
  split_and!; try reflexivity; try apply classify_student_is_level.
  all: intros ?; unfold classify_student; simpl;
    repeat case_match; (reflexivity || lia).
Qed.

Lemma classify_student_levels_witness :
  classify_student 30 = level_label NeedsImprovement ∧
  classify_student 50 = level_label Average ∧
  classify_student 84 = level_label Good ∧
  classify_student 85 = level_label Excellent ∧
  classify_student 100 = level_label AdvancedLearner.
Proof.
  split_and!.
  - apply (classify_student_levels 30); lia.
  - apply (classify_student_levels 50); lia.
  - apply (classify_student_levels 84); lia.
  - apply (classify_student_levels 85); lia.
  - apply (classify_student_levels 100); lia.
Defined.

(** ** Python strings: searching, slicing and stripping *)

Lemma startswith_prefix (sub s : pystr) :
  startswith sub s = true ↔ sub `prefix_of` s.
Proof.
  revert s. induction sub as [|a sub IH]; intros [|b s]; simpl.
  - split; [intros _; apply prefix_nil | done].
  - split; [intros _; apply prefix_nil | done].
  - split; [done | intros [k Hk]; discriminate].
  - rewrite andb_true_iff, bool_decide_eq_true, IH. split.
    + intros [-> Hp]. by apply prefix_cons.
    + intros Hp. split; [by eapply prefix_cons_inv_1 | by eapply prefix_cons_inv_2].
Qed.

Lemma find_at_Some (sub s : pystr) (off i : nat) :
  find_at sub s off = Some i →
  ∃ k, i = (off + k)%nat ∧ (k ≤ length s)%nat ∧ sub `prefix_of` drop k s ∧
       ∀ j, (j < k)%nat → ¬ sub `prefix_of` drop j s.
Proof.
  revert off. induction s as [|c s IH]; intros off; simpl.
  - destruct (startswith sub []) eqn:E; [|done].
    intros [= <-]. exists 0%nat. split_and!; [lia | done | | lia].
    by apply startswith_prefix.
  - destruct (startswith sub (c :: s)) eqn:E.
    + intros [= <-]. exists 0%nat. split_and!; [lia | lia | | lia].
      by apply startswith_prefix.
    + intros (k & -> & Hk & Hp & Hmin)%IH. exists (S k).
      split_and!; [lia | lia | done |].
      intros [|j] Hj; simpl.
      * rewrite <- startswith_prefix. by rewrite E.
      * apply Hmin. lia.
Qed.

Lemma find_at_None (sub s : pystr) (off k : nat) :
  find_at sub s off = None → (k ≤ length s)%nat → ¬ sub `prefix_of` drop k s.
Proof.
  revert off k. induction s as [|c s IH]; intros off k; simpl.
  - destruct (startswith sub []) eqn:E; [done|]. intros _ Hk.
    replace k with 0%nat by lia. simpl.
    rewrite <- startswith_prefix. by rewrite E.
  - destruct (startswith sub (c :: s)) eqn:E; [done|]. intros Hn Hk.
    destruct k as [|k]; simpl.
    + rewrite <- startswith_prefix. by rewrite E.
    + eapply IH; [done | lia].
Qed.

(** [s.find(sub, start)] is the lowest index from [start] on at which
    [sub] stands in [s]. *)
Lemma find_Some (s sub : pystr) (start i : nat) :
  find s sub start = Some i →
  (start ≤ i ≤ length s)%nat ∧ sub `prefix_of` drop i s ∧
  ∀ j, (start ≤ j < i)%nat → ¬ sub `prefix_of` drop j s.
Proof.
  unfold find. case_decide as Hs; [|done].
  intros (k & -> & Hk & Hp & Hmin)%find_at_Some.
  rewrite length_drop in Hk. rewrite drop_drop in Hp.
  split_and!; [lia | lia | done |].
  intros j Hj. specialize (Hmin (j - start)%nat).
  rewrite drop_drop in Hmin. replace (start + (j - start))%nat with j in Hmin by lia.
  apply Hmin. lia.
Qed.

Lemma find_None (s sub : pystr) (start j : nat) :
  find s sub start = None → (start ≤ j ≤ length s)%nat →
  ¬ sub `prefix_of` drop j s.
Proof.
  unfold find. case_decide as Hs; [|lia].
  intros Hn Hj. pose proof (find_at_None _ _ _ (j - start)%nat Hn) as H.
  rewrite length_drop, drop_drop in H.
  replace (start + (j - start))%nat with j in H by lia.
  apply H. lia.
Qed.

Lemma substring_of_drop_prefix (sub s : pystr) (i : nat) :
  sub `prefix_of` drop i s → substring_of sub s.
Proof.
  intros [post Hp]. exists (take i s), post.
  by rewrite <- Hp, take_drop.
Qed.

Lemma substring_of_refl (s : pystr) : substring_of s s.
Proof. exists [], []. by rewrite app_nil_r. Qed.

Lemma substring_of_trans (s t u : pystr) :
  substring_of s t → substring_of t u → substring_of s u.
Proof.
  intros (p1 & q1 & ->) (p2 & q2 & ->).
  exists (p2 ++ p1), (q1 ++ q2). by rewrite <- !app_assoc.
Qed.

(** [sub in s] holds exactly when [sub] occurs contiguously in [s]. *)
Lemma contains_substring_of (sub s : pystr) :
  contains sub s = true ↔ substring_of sub s.
Proof.
  unfold contains. rewrite bool_decide_eq_true. split.
  - intros [i (_ & Hp & _)%find_Some]. by eapply substring_of_drop_prefix.
  - intros (pre & post & ->).
    destruct (find (pre ++ sub ++ post) sub 0) as [i|] eqn:E; [done|].
    exfalso. apply (find_None _ _ _ (length pre) E).
    + rewrite length_app. lia.
    + rewrite drop_app_length. by exists post.
Qed.

Lemma slice_substring_of (a b : nat) (s : pystr) :
  substring_of (slice a b s) s.
Proof.
  exists (take a (take b s)), (drop b s). unfold slice.
  by rewrite app_assoc, take_drop, take_drop.
Qed.

Lemma drop_while_suffix {A} (p : A → bool) (l : list A) :
  drop_while p l `suffix_of` l.
Proof.
  induction l as [|x l IH]; simpl; [done|].
  destruct (p x); [by apply suffix_cons_r | done].
Qed.

Lemma lstrip_suffix (s : pystr) : lstrip s `suffix_of` s.
Proof. apply drop_while_suffix. Qed.

Lemma rstrip_prefix (s : pystr) : rstrip s `prefix_of` s.
Proof.
  unfold rstrip. destruct (lstrip_suffix (reverse s)) as [k Hk].
  exists (reverse k). apply (inj reverse).
  by rewrite reverse_app, !reverse_involutive.
Qed.

Lemma strip_substring_of (s : pystr) : substring_of (strip s) s.
Proof.
  unfold strip. destruct (lstrip_suffix s) as [pre Hpre].
  destruct (rstrip_prefix (lstrip s)) as [post Hpost].
  exists pre, post. by rewrite <- Hpost.
Qed.

Lemma strip_length (s : pystr) : (length (strip s) ≤ length s)%nat.
Proof.
  destruct (strip_substring_of s) as (pre & post & H).
  rewrite H at 2. rewrite !length_app. lia.
Qed.

(** ** The topic locator *)

(** C6. With the choice of the entire document, a selection whose
    lower-case form contains "entire document", the locator of app.py
    returns the text of the document unchanged. *)
Theorem get_text_for_topic_entire_document
    (full_text selected_topic : pystr) (all_titles : list pystr) :
  substring_of (str "entire document") (lower selected_topic) →
  App.get_text_for_topic full_text selected_topic all_titles = Ok full_text.
Proof.
  intros H%contains_substring_of. unfold App.get_text_for_topic.
  rewrite H. by rewrite orb_true_r.
Qed.

(** The two entries the selection boxes of app.py offer for it. *)
Lemma get_text_for_topic_entire_document_witness :
  App.get_text_for_topic intro_doc (str "Summarize Entire Document")
    [str "Intro"; str "Chapter2"] = Ok intro_doc ∧
  App.get_text_for_topic intro_doc (str "Entire Document")
    [str "Intro"; str "Chapter2"] = Ok intro_doc.
Proof.
  split.
  - apply (get_text_for_topic_entire_document intro_doc
             (str "Summarize Entire Document") [str "Intro"; str "Chapter2"]).
    exists (str "summarize "), []. reflexivity.
  - apply (get_text_for_topic_entire_document intro_doc
             (str "Entire Document") [str "Intro"; str "Chapter2"]).
    exists [], []. reflexivity.
Defined.

(** An empty selection is the other way to the whole document, in both
    versions. *)
Lemma get_text_for_topic_no_selection
    (full_text : pystr) (all_titles : list pystr) :
  App.get_text_for_topic full_text [] all_titles = Ok full_text ∧
  SummarizerBackend.get_text_for_topic full_text [] all_titles = full_text.
Proof. done. Qed.

(** C3. When the section extracted is shorter than 50 characters and
    the document longer than 100, the locator of summarizer_backend.py
    returns the whole document. *)
Theorem get_text_for_topic_short_section
    (full_text selected_topic section : pystr) (all_titles : list pystr) :
  SummarizerBackend.extracted_section full_text selected_topic all_titles = Some section →
  (length section < 50)%nat →
  (100 < length full_text)%nat →
  SummarizerBackend.get_text_for_topic full_text selected_topic all_titles = full_text.
Proof.
  intros Hsec Hshort Hlong. unfold SummarizerBackend.get_text_for_topic. rewrite Hsec.
  case_match; [done|].
  apply Nat.ltb_lt in Hshort, Hlong. by rewrite Hshort, Hlong.
Qed.

Lemma get_text_for_topic_short_section_witness :
  SummarizerBackend.extracted_section long_doc (str "Intro") [str "Intro"; str "Chapter2"]
  = Some (str "hello world") ∧
  SummarizerBackend.get_text_for_topic long_doc (str "Intro") [str "Intro"; str "Chapter2"]
  = long_doc.
Proof.
  assert (SummarizerBackend.extracted_section long_doc (str "Intro")
            [str "Intro"; str "Chapter2"] = Some (str "hello world")) as H
    by (vm_compute; reflexivity).
  split; [exact H|].
  apply (get_text_for_topic_short_section long_doc (str "Intro")
           (str "hello world") [str "Intro"; str "Chapter2"] H).
  - vm_compute. lia.
  - vm_compute. lia.
Defined.

(** The locator of app.py has no such rule: on the same document it
    returns its 18 characters. *)
Lemma app_get_text_for_topic_keeps_short_section :
  App.get_text_for_topic long_doc (str "Intro") [str "Intro"; str "Chapter2"]
  = Ok (str "Intro" ++ nl ++ str "hello world" ++ nl).
Proof. vm_compute. reflexivity. Qed.

(** C5, as stated: neither version returns ["hello world\n"] on the
    sample document. *)
Lemma get_text_for_topic_intro_not_with_newline :
  SummarizerBackend.get_text_for_topic intro_doc (str "Intro") [str "Intro"; str "Chapter2"]
  ≠ str "hello world" ++ nl ∧
  App.get_text_for_topic intro_doc (str "Intro") [str "Intro"; str "Chapter2"]
  ≠ Ok (str "hello world" ++ nl).
Proof. split; vm_compute; discriminate. Qed.

(** C5, amended. On the sample document the locator of
    summarizer_backend.py returns the stripped text between the two
    headings, ["hello world"], and the one of app.py the text from the
    heading on, ["Intro\nhello world\n"]. *)
Theorem get_text_for_topic_intro :
  SummarizerBackend.get_text_for_topic intro_doc (str "Intro") [str "Intro"; str "Chapter2"]
  = str "hello world" ∧
  App.get_text_for_topic intro_doc (str "Intro") [str "Intro"; str "Chapter2"]
  = Ok (str "Intro" ++ nl ++ str "hello world" ++ nl).
Proof. split; vm_compute; reflexivity. Qed.

Lemma list_index_from_not_in (l : list pystr) (x : pystr) (i : nat) :
  x ∉ l → list_index_from l x i = Raise ValueError.
Proof.
  revert i. induction l as [|y l IH]; intros i Hx; simpl; [done|].
  apply not_elem_of_cons in Hx as [Hne Hx].
  case_decide; [congruence | by apply IH].
Qed.

Lemma list_index_from_Ok (l : list pystr) (x : pystr) (i n : nat) :
  list_index_from l x i = Ok n →
  (i ≤ n)%nat ∧ l !! (n - i)%nat = Some x ∧
  ∀ j, (j < n - i)%nat → l !! j ≠ Some x.
Proof.
  revert i. induction l as [|y l IH]; intros i; simpl; [done|].
  case_decide as Hy.
  - intros [= <-]. subst y. replace (i - i)%nat with 0%nat by lia.
    split_and!; [lia | done | lia].
  - intros (Hi & Hl & Hmin)%IH.
    replace (n - i)%nat with (S (n - S i)) by lia.
    split_and!; [lia | done |].
    intros [|j] Hj; simpl; [congruence | apply Hmin; lia].
Qed.

Lemma list_index_from_result (l : list pystr) (x : pystr) (i : nat) :
  list_index_from l x i = Raise ValueError ∨ ∃ n, list_index_from l x i = Ok n.
Proof.
  revert i. induction l as [|y l IH]; intros i; simpl; [by left|].
  case_decide; [right; eauto | apply IH].
Qed.

(** C9. Either version returns a contiguous part of the document, the
    whole of it when a lookup fails; the version of app.py, which makes
    the calls that can raise, raises nothing. *)
Theorem get_text_for_topic_substring
    (full_text selected_topic : pystr) (all_titles : list pystr) :
  (∃ text,
      App.get_text_for_topic full_text selected_topic all_titles = Ok text ∧
      (text = full_text ∨ substring_of text full_text)) ∧
  (SummarizerBackend.get_text_for_topic full_text selected_topic all_titles = full_text ∨
   substring_of (SummarizerBackend.get_text_for_topic full_text selected_topic all_titles)
                full_text) ∧
  (find (lower full_text) (lower selected_topic) 0 = None →
   App.get_text_for_topic full_text selected_topic all_titles = Ok full_text) ∧
  (selected_topic ∉ all_titles →
   App.get_text_for_topic full_text selected_topic all_titles = Ok full_text) ∧
  (SummarizerBackend.heading_search selected_topic full_text = None →
   SummarizerBackend.get_text_for_topic full_text selected_topic all_titles = full_text).
Proof.
  split_and!.
  - unfold App.get_text_for_topic. case_match; [eauto|].
    unfold str_index, list_index, list_get.
    destruct (find (lower full_text) (lower selected_topic) 0)
      as [start_index|]; simpl; [|eauto].
    destruct (list_index_from_result all_titles selected_topic 0)
      as [->|[cur ->]]; simpl; [eauto|].
    case_decide; simpl; [|eauto using slice_substring_of].
    destruct (all_titles !! (cur + 1)%nat) as [next_topic|]; simpl; [|eauto].
    destruct (find (lower full_text) (lower next_topic) (start_index + 1));
      simpl; eauto using slice_substring_of.
  - unfold SummarizerBackend.get_text_for_topic. case_match; [by left|].
    unfold SummarizerBackend.extracted_section.
    destruct (SummarizerBackend.heading_search selected_topic full_text)
      as [[s e]|]; [|by left].
    case_match; [by left|]. right.
    eapply substring_of_trans;
      [apply strip_substring_of | apply slice_substring_of].
  - intros Hnone. unfold App.get_text_for_topic. case_match; [done|].
    unfold str_index. by rewrite Hnone.
  - intros Hnotin. unfold App.get_text_for_topic. case_match; [done|].
    unfold list_index. rewrite list_index_from_not_in by done.
    destruct (str_index _ _ _) as [?|[]]; reflexivity.
  - intros Hnone. unfold SummarizerBackend.get_text_for_topic.
    case_match; [done|].
    unfold SummarizerBackend.extracted_section. by rewrite Hnone.
Qed.

Lemma get_text_for_topic_substring_witness :
  App.get_text_for_topic intro_doc (str "Outro") [str "Intro"; str "Outro"]
  = Ok intro_doc ∧
  App.get_text_for_topic intro_doc (str "bye") [str "Intro"; str "Chapter2"]
  = Ok intro_doc ∧
  SummarizerBackend.get_text_for_topic intro_doc (str "Outro")
    [str "Intro"; str "Outro"] = intro_doc.
Proof.
  split_and!.
  - destruct (get_text_for_topic_substring intro_doc (str "Outro")
                [str "Intro"; str "Outro"]) as (_ & _ & H & _ & _).
    apply H. vm_compute. reflexivity.
  - destruct (get_text_for_topic_substring intro_doc (str "bye")
                [str "Intro"; str "Chapter2"]) as (_ & _ & _ & H & _).
    apply H. apply (bool_decide_unpack _). vm_compute. exact I.
  - destruct (get_text_for_topic_substring intro_doc (str "Outro")
                [str "Intro"; str "Outro"]) as (_ & _ & _ & _ & H).
    apply H. vm_compute. reflexivity.
Defined.

(** ** The validation of generated questions *)

Lemma dict_with_mcq_item (q : Qna.json) :
  Qna.dict_with ["question"; "options"; "correct_answer"]%string q = true
  ↔ mcq_item q.
Proof.
  unfold Qna.dict_with, mcq_item. destruct q as [| | | |items|fields]; simpl;
    try (split; [done | by intros (? & ? & _)]).
  rewrite !andb_true_iff, !bool_decide_eq_true. split.
  - intros (? & ? & ? & _). by exists fields.
  - intros (? & [= <-] & ? & ? & ?). done.
Qed.

(** C8. For a multiple-choice quiz, [generate_questions] returns the
    parsed array when every item is an object with the fields
    question, options and correct_answer, and the empty list, nothing
    of the array, when an item has no field correct_answer. *)
Theorem generate_questions_mcq_validation (questions : list Qna.json) :
  (Forall mcq_item questions →
   Qna.generate_questions "mcq" (Some (Qna.JArray questions)) = questions) ∧
  (∀ q, q ∈ questions → Qna.has_key "correct_answer" q = false →
   Qna.generate_questions "mcq" (Some (Qna.JArray questions)) = []).
Proof.
  unfold Qna.generate_questions. simpl. split.
  - intros Hall.
    destruct (forallb _ questions) eqn:E; [done|].
    apply not_true_iff_false in E. exfalso. apply E.
    apply forallb_forall. intros q Hq%list_elem_of_In.
    apply dict_with_mcq_item. by eapply Forall_forall in Hall.
  - intros q Hq Hkey.
    destruct (forallb _ questions) eqn:E; [|done]. exfalso.
    rewrite forallb_forall in E. apply list_elem_of_In, E in Hq.
    apply dict_with_mcq_item in Hq as (fields & -> & _ & _ & Hin).
    simpl in Hkey. by apply bool_decide_eq_false in Hkey.
Qed.

Lemma generate_questions_mcq_validation_witness :
  Qna.generate_questions "mcq"
    (Some (Qna.JArray [sample_mcq "correct_answer"; sample_mcq "correct_answer"]))
  = [sample_mcq "correct_answer"; sample_mcq "correct_answer"] ∧
  Qna.generate_questions "mcq"
    (Some (Qna.JArray [sample_mcq "correct_answer"; sample_mcq "answer"]))
  = [].
Proof.
  split.
  - apply (generate_questions_mcq_validation
             [sample_mcq "correct_answer"; sample_mcq "correct_answer"]).
    repeat constructor; eexists; (split; [reflexivity|]);
      split_and!; apply (bool_decide_unpack _); vm_compute; exact I.
  - apply (generate_questions_mcq_validation
             [sample_mcq "correct_answer"; sample_mcq "answer"])
      with (q := sample_mcq "answer").
    + repeat constructor.
    + vm_compute. reflexivity.
Defined.

(** The other outcomes of the validation: what is not an array, and
    what could not be parsed, gives the empty list as well. *)
Lemma generate_questions_not_an_array (question_type : string)
    (fields : list (string * Qna.json)) :
  Qna.generate_questions question_type (Some (Qna.JObject fields)) = [] ∧
  Qna.generate_questions question_type None = [].
Proof. done. Qed.

(** ** The round of the week *)

(** The division of [m] by 7, for [lia]. *)
Ltac euclid7 m :=
  pose proof (Nat.div_mod_eq m 7);
  pose proof (Nat.mod_upper_bound m 7 ltac:(lia)).

Section RoundRobin.
Context {A : Type}.
Implicit Types (l : list A) (st : gmap string (list A) * nat).

Lemma week_days_NoDup : NoDup week_days.
Proof. apply (bool_decide_unpack _). vm_compute. exact I. Qed.

Lemma week_days_lookup_inj (k k' : nat) (day : string) :
  week_days !! k = Some day → week_days !! k' = Some day → k = k'.
Proof. apply NoDup_lookup, week_days_NoDup. Qed.

Lemma week_days_lookup_lt (k : nat) (day : string) :
  week_days !! k = Some day → (k < 7)%nat.
Proof. intros H%lookup_lt_Some. exact H. Qed.

Lemma empty_schedule_lookup (k : nat) (day : string) :
  week_days !! k = Some day → (@empty_schedule A) !!! day = [].
Proof.
  intros H. do 7 (destruct k as [|k]; [injection H as <-; reflexivity|]).
  discriminate.
Qed.

(** A list whose entries are those of [l] at [k], [k + 7], ... has as
    many entries as there are such positions in [l]. *)
Lemma stride_length (day_tasks l : list A) (k : nat) :
  (k < 7)%nat →
  (∀ j, day_tasks !! j = l !! (7 * j + k)%nat) →
  length day_tasks = ((length l + 6 - k) / 7)%nat.
Proof.
  intros Hk H.
  assert (∀ j, (j < length day_tasks)%nat ↔ (7 * j + k < length l)%nat) as Hlt.
  { intros j. by rewrite <- !lookup_lt_is_Some, H. }
  pose proof (Hlt (length day_tasks)) as H1.
  pose proof (Hlt (length day_tasks - 1)%nat) as H2.
  assert (length l ≤ 7 * length day_tasks + k)%nat as H3 by lia.
  assert (length day_tasks ≥ 1 → 7 * (length day_tasks - 1) + k < length l)%nat
    as H4 by lia.
  clear Hlt H1 H2.
  apply Nat.div_unique
    with (r := (length l + 6 - k - 7 * length day_tasks)%nat); lia.
Qed.

(** After the loop over [l], the counter is the length of [l], and the
    list of the [k]-th day holds the entries [k], [k + 7], ... of [l],
    in their order. *)
Lemma append_task_loop (l : list A) :
  (fold_left append_task l (empty_schedule, 0%nat)).2 = length l ∧
  ∀ k day, week_days !! k = Some day →
    ∀ j, ((fold_left append_task l (empty_schedule, 0%nat)).1 !!! day) !! j
         = l !! (7 * j + k)%nat.
Proof.
  induction l as [|x l [IHi IH]] using rev_ind.
  - split; [done|]. intros k day Hday j. cbn [fold_left fst].
    by rewrite (empty_schedule_lookup k day Hday).
  - rewrite fold_left_app. cbn [fold_left].
    set (st := fold_left append_task l (empty_schedule, 0%nat)) in *.
    unfold append_task. cbn [fst snd].
    change (length week_days) with 7%nat.
    rewrite IHi, length_app. cbn [length].
    split; [lia|]. intros k day Hday j.
    pose proof (week_days_lookup_lt _ _ Hday) as Hk.
    destruct (week_days !! (length l mod 7)%nat) as [day'|] eqn:Hday';
      [|apply lookup_ge_None in Hday'; simpl in Hday'; lia].
    euclid7 (length l). euclid7 (length l + 6 - k)%nat.
    rewrite (list_lookup_total_correct _ _ _ Hday').
    destruct (decide (day' = day)) as [->|Hne].
    + assert (k = length l mod 7)%nat as Hkl
        by (eapply week_days_lookup_inj; eassumption).
      rewrite lookup_total_insert_eq.
      pose proof (stride_length _ _ _ Hk (IH k day Hday)) as Hlen.
      destruct (decide (j < length (st.1 !!! day))%nat) as [Hj|Hj].
      * rewrite lookup_app_l by done. rewrite (IH k day Hday).
        symmetry. apply lookup_app_l. lia.
      * destruct (decide (j = length (st.1 !!! day))) as [->|Hj'].
        -- rewrite list_lookup_middle by done.
           symmetry. apply list_lookup_middle. lia.
        -- rewrite !(proj2 (lookup_ge_None _ _)); [done | |];
             rewrite length_app; simpl; lia.
    + rewrite lookup_total_insert_ne by done. rewrite (IH k day Hday).
      assert (k ≠ length l mod 7)%nat as Hkl by congruence.
      destruct (decide (7 * j + k < length l)%nat) as [Hj|Hj].
      * symmetry. by apply lookup_app_l.
      * rewrite !(proj2 (lookup_ge_None _ _)); [done | |];
          try rewrite length_app; simpl; lia.
Qed.

(** Hence each day has a seventh of the entries, rounded down or up. *)
Lemma append_task_loop_length (l : list A) (k : nat) (day : string) :
  week_days !! k = Some day →
  length ((fold_left append_task l (empty_schedule, 0%nat)).1 !!! day)
  = ((length l + 6 - k) / 7)%nat.
Proof.
  intros Hday. eapply stride_length.
  - by eapply week_days_lookup_lt.
  - by apply append_task_loop.
Qed.

End RoundRobin.

(** ** The scheduler *)

Lemma fold_left_append_task_map {A B} (f : B → A) (l : list B)
    (st : gmap string (list A) * nat) :
  fold_left (λ st t, append_task st (f t)) l st
  = fold_left append_task (f <$> l) st.
Proof. revert st. induction l as [|t l IH]; intros st; simpl; [done|apply IH]. Qed.

Lemma fold_left_append_task_filter {A B} (f : B → A) (P : B → Prop)
    `{!∀ t, Decision (P t)} (l : list B) (st : gmap string (list A) * nat) :
  fold_left (λ st t, if bool_decide (P t) then append_task st (f t) else st) l st
  = fold_left append_task (f <$> filter P l) st.
Proof.
  revert st. induction l as [|t l IH]; intros st; simpl; [done|].
  rewrite IH, filter_cons. case_bool_decide; by case_decide.
Qed.

Lemma insert_by_score_Permutation (t : topic) (l : list topic) :
  App.insert_by_score t l ≡ₚ t :: l.
Proof.
  induction l as [|u l IH]; simpl; [done|].
  case_match; [done|]. rewrite IH. apply Permutation_swap.
Qed.

Lemma sorted_by_score_Permutation (l : list topic) :
  App.sorted_by_score l ≡ₚ l.
Proof.
  induction l as [|t l IH]; simpl; [done|].
  by rewrite insert_by_score_Permutation, IH.
Qed.

(** A list is in ascending order of score. *)
Lemma insert_by_score_ascending (t : topic) (l : list topic) :
  StronglySorted (λ a b, score a ≤ score b) l →
  StronglySorted (λ a b, score a ≤ score b) (App.insert_by_score t l).
Proof.
  induction 1 as [|u l Hl IH Hu]; simpl.
  - repeat constructor.
  - destruct (score t <=? score u) eqn:E.
    + apply Z.leb_le in E. constructor; [by constructor|].
      constructor; [done|].
      eapply Forall_impl; [exact Hu|]. simpl. intros; lia.
    + apply Z.leb_gt in E. constructor; [done|].
      rewrite insert_by_score_Permutation. constructor; [lia | done].
Qed.

Lemma sorted_by_score_ascending (l : list topic) :
  StronglySorted (λ a b, score a ≤ score b) (App.sorted_by_score l).
Proof.
  induction l as [|t l IH]; simpl; [constructor|].
  by apply insert_by_score_ascending.
Qed.

Lemma StronglySorted_lookup_le (l : list topic) (i j : nat) (a b : topic) :
  StronglySorted (λ a b, score a ≤ score b) l →
  (i ≤ j)%nat → l !! i = Some a → l !! j = Some b → score a ≤ score b.
Proof.
  intros Hl. revert i j. induction Hl as [|u l Hl IH Hu]; intros i j Hij; [done|].
  destruct i as [|i], j as [|j]; simpl; try lia.
  - intros [= <-] [= <-]. lia.
  - intros [= <-] Hb. eapply Forall_forall in Hu; [exact Hu|].
    by eapply list_elem_of_lookup_2.
  - apply IH. lia.
Qed.

(** The sort is stable: subjects of one score keep the order they had. *)
Lemma insert_by_score_filter (z : Z) (t : topic) (l : list topic) :
  StronglySorted (λ a b, score a ≤ score b) l →
  filter (λ u, score u = z) (App.insert_by_score t l)
  = filter (λ u, score u = z) (t :: l).
Proof.
  induction 1 as [|u l Hl IH Hu]; simpl; [done|].
  destruct (score t <=? score u) eqn:E; [done|]. apply Z.leb_gt in E.
  rewrite (filter_cons _ u), IH, !filter_cons.
  repeat case_decide; try done; lia.
Qed.

Lemma sorted_by_score_stable (z : Z) (l : list topic) :
  filter (λ u, score u = z) (App.sorted_by_score l)
  = filter (λ u, score u = z) l.
Proof.
  induction l as [|t l IH]; simpl; [done|].
  rewrite insert_by_score_filter by apply sorted_by_score_ascending.
  by rewrite !filter_cons, IH.
Qed.

Lemma assign_days_lookup (sorted_topics : list topic) (k : nat) (day : string) :
  week_days !! k = Some day →
  ∀ j, (App.assign_days sorted_topics !!! day) !! j
       = App.task_of <$> sorted_topics !! (7 * j + k)%nat.
Proof.
  intros Hday j. unfold App.assign_days.
  rewrite fold_left_append_task_map.
  destruct (append_task_loop (App.task_of <$> sorted_topics)) as [_ H].
  by rewrite (H k day Hday), list_lookup_fmap.
Qed.

(** C1. The scheduler of app.py keeps the subjects whose name is not
    blank, sorts them by ascending score and gives the [i]-th of them
    to the day [i mod 7] of the week from Monday to Sunday, whose list
    holds nothing else; for Math 40, Art 90 and Bio 65 this is Math on
    Monday, Bio on Tuesday, Art on Wednesday and four empty days. *)
Theorem generate_schedule_round_robin (scheduler_topics : list topic) :
  let valid := App.valid_topics scheduler_topics in
  let sorted := App.sorted_by_score valid in
  (∀ t, t ∈ valid ↔ t ∈ scheduler_topics ∧ strip (name t) ≠ []) ∧
  sorted ≡ₚ valid ∧
  (∀ i j a b, (i ≤ j)%nat → sorted !! i = Some a → sorted !! j = Some b →
              score a ≤ score b) ∧
  (valid ≠ [] →
   ∃ schedule,
     App.generate_schedule scheduler_topics = Some schedule ∧
     (∀ i t, sorted !! i = Some t →
        ∃ day, week_days !! (i mod 7)%nat = Some day ∧
               (schedule !!! day) !! (i / 7)%nat = Some (App.task_of t)) ∧
     (∀ k day, week_days !! k = Some day →
        ∀ j, (schedule !!! day) !! j
             = App.task_of <$> sorted !! (7 * j + k)%nat)) ∧
  (∃ schedule,
     App.generate_schedule sample_subjects = Some schedule ∧
     schedule !! "Monday"%string
       = Some [App.Task (str "Math") "High" "90 min"] ∧
     schedule !! "Tuesday"%string
       = Some [App.Task (str "Bio") "Medium" "60 min"] ∧
     schedule !! "Wednesday"%string
       = Some [App.Task (str "Art") "Low" "30 min"] ∧
     schedule !! "Thursday"%string = Some [] ∧
     schedule !! "Friday"%string = Some [] ∧
     schedule !! "Saturday"%string = Some [] ∧
     schedule !! "Sunday"%string = Some []).
Proof.
  intros valid sorted. split_and!.
  - intros t. unfold valid, App.valid_topics. by rewrite list_elem_of_filter, (comm and).
  - apply sorted_by_score_Permutation.
  - intros i j a b. apply StronglySorted_lookup_le, sorted_by_score_ascending.
  - intros Hvalid. exists (App.assign_days sorted). split_and!.
    + unfold App.generate_schedule. fold valid.
      by rewrite bool_decide_eq_false_2.
    + intros i t Ht. euclid7 i.
      destruct (week_days !! (i mod 7)%nat) as [day|] eqn:Hday;
        [|apply lookup_ge_None in Hday; simpl in Hday; lia].
      exists day. split; [done|].
      rewrite (assign_days_lookup _ _ _ Hday).
      replace (7 * (i / 7) + i mod 7)%nat with i by lia. by rewrite Ht.
    + intros k day Hday j. by apply assign_days_lookup.
  - eexists. split; [reflexivity|]. split_and!; vm_compute; reflexivity.
Qed.

Lemma generate_schedule_round_robin_witness :
  ∃ schedule,
    App.generate_schedule sample_subjects = Some schedule ∧
    (schedule !!! "Tuesday"%string) !! 0%nat
    = Some (App.task_of (Topic (str "Bio") 65)).
Proof.
  destruct (generate_schedule_round_robin sample_subjects)
    as (_ & _ & _ & H & _).
  destruct H as (schedule & Hs & Hi & _); [vm_compute; discriminate|].
  exists schedule. split; [exact Hs|].
  destruct (Hi 1%nat (Topic (str "Bio") 65)) as (day & Hday & Htask);
    [vm_compute; reflexivity|].
  vm_compute in Hday. injection Hday as <-. exact Htask.
Defined.

(** schedule.py runs the same round over the subjects in the order of
    the form: it passes over empty names only and does not sort, so the
    sample has Art on Tuesday and Bio on Wednesday there. *)
Lemma schedule_py_lookup (topics : list topic) (k : nat) (day : string) :
  week_days !! k = Some day →
  ∀ j, (Schedule.generate_schedule topics !!! day) !! j
       = Schedule.task_of <$> filter (λ t, name t ≠ []) topics !! (7 * j + k)%nat.
Proof.
  intros Hday j. unfold Schedule.generate_schedule.
  rewrite (fold_left_append_task_filter Schedule.task_of (λ t, name t ≠ [])).
  destruct (append_task_loop
              (Schedule.task_of <$> filter (λ t, name t ≠ []) topics)) as [_ H].
  by rewrite (H k day Hday), list_lookup_fmap.
Qed.

Lemma schedule_py_sample :
  Schedule.generate_schedule sample_subjects !! "Tuesday"%string
  = Some [Schedule.Task (str "Art") 90 "Easy" "30 min"] ∧
  Schedule.generate_schedule sample_subjects !! "Wednesday"%string
  = Some [Schedule.Task (str "Bio") 65 "Medium" "60 min"].
Proof. split; vm_compute; reflexivity. Qed.

(** The day of index [k] gets the entries [k], [k + 7], ... of [n]:
    the seventh part of [n] rounded down or up, at most one more than
    any other day, and at most one up to seven entries. *)
Lemma stride_count_bounds (n k k' : nat) :
  (k < 7)%nat → (k' < 7)%nat →
  (((n + 6 - k) / 7 = n / 7 ∨ (n + 6 - k) / 7 = (n + 6) / 7) ∧
   (n + 6 - k) / 7 ≤ (n + 6 - k') / 7 + 1 ∧
   (n ≤ 7 → (n + 6 - k) / 7 ≤ 1))%nat.
Proof.
  intros Hk Hk'.
  euclid7 n. euclid7 (n + 6)%nat. euclid7 (n + 6 - k)%nat.
  euclid7 (n + 6 - k')%nat. lia.
Qed.

(** C10. Whenever some subject has a name that is not blank, app.py
    builds a schedule, and of the [n] such subjects each day of the
    week gets the seventh part rounded down or rounded up; so two days
    differ by one at most, and no day gets more than one subject when
    [n] is at most 7. *)
Theorem schedule_daily_load (topics : list topic) (day day' : string) :
  day ∈ week_days → day' ∈ week_days →
  App.valid_topics topics ≠ [] →
  ∃ schedule,
    App.generate_schedule topics = Some schedule ∧
    let n := length (App.valid_topics topics) in
    (length (schedule !!! day) = (n / 7)%nat ∨
     length (schedule !!! day) = ((n + 6) / 7)%nat) ∧
    (length (schedule !!! day) ≤ length (schedule !!! day') + 1)%nat ∧
    ((n ≤ 7)%nat → (length (schedule !!! day) ≤ 1)%nat).
Proof.
  intros [k Hday]%list_elem_of_lookup_1 [k' Hday']%list_elem_of_lookup_1 Hvalid.
  pose proof (week_days_lookup_lt _ _ Hday) as Hk.
  pose proof (week_days_lookup_lt _ _ Hday') as Hk'.
  exists (App.assign_days (App.sorted_by_score (App.valid_topics topics))).
  split.
  - unfold App.generate_schedule. by rewrite bool_decide_eq_false_2.
  - intros n. unfold App.assign_days. rewrite fold_left_append_task_map.
    rewrite (append_task_loop_length _ k day Hday),
      (append_task_loop_length _ k' day' Hday'), length_fmap.
    rewrite (Permutation_length (sorted_by_score_Permutation _)). fold n.
    by apply stride_count_bounds.
Qed.

Lemma schedule_daily_load_witness :
  ∃ schedule,
    App.generate_schedule sample_subjects = Some schedule ∧
    let n := length (App.valid_topics sample_subjects) in
    (length (schedule !!! "Monday"%string) = (n / 7)%nat ∨
     length (schedule !!! "Monday"%string) = ((n + 6) / 7)%nat) ∧
    (length (schedule !!! "Monday"%string)
     ≤ length (schedule !!! "Thursday"%string) + 1)%nat ∧
    ((n ≤ 7)%nat → (length (schedule !!! "Monday"%string) ≤ 1)%nat).
Proof.
  apply (schedule_daily_load sample_subjects "Monday" "Thursday").
  - apply (bool_decide_unpack _). vm_compute. exact I.
  - apply (bool_decide_unpack _). vm_compute. exact I.
  - vm_compute. discriminate.
Defined.

(** schedule.py runs the same round over the subjects whose name is
    not empty (a name of white space only counts there): of [n] such
    subjects each day gets the seventh part rounded down or up. *)
Lemma schedule_py_daily_load (topics : list topic) (day day' : string) :
  day ∈ week_days → day' ∈ week_days →
  let n := length (filter (λ t, name t ≠ []) topics) in
  (length (Schedule.generate_schedule topics !!! day) = (n / 7)%nat ∨
   length (Schedule.generate_schedule topics !!! day) = ((n + 6) / 7)%nat) ∧
  (length (Schedule.generate_schedule topics !!! day)
   ≤ length (Schedule.generate_schedule topics !!! day') + 1)%nat ∧
  ((n ≤ 7)%nat → (length (Schedule.generate_schedule topics !!! day) ≤ 1)%nat).
Proof.
  intros [k Hday]%list_elem_of_lookup_1 [k' Hday']%list_elem_of_lookup_1 n.
  pose proof (week_days_lookup_lt _ _ Hday) as Hk.
  pose proof (week_days_lookup_lt _ _ Hday') as Hk'.
  unfold Schedule.generate_schedule.
  rewrite (fold_left_append_task_filter Schedule.task_of (λ t, name t ≠ [])).
  rewrite (append_task_loop_length _ k day Hday),
    (append_task_loop_length _ k' day' Hday'), length_fmap. fold n.
  by apply stride_count_bounds.
Qed.

(** ** The heading pattern *)

Section HeadingPattern.
Import SummarizerBackend.

Lemma match_body_from_Some (lit s : pystr) (k n : nat) :
  match_body_from lit s k = Some n →
  ∃ w, (w ≤ k)%nat ∧ match_literal lit (drop w s) = true ∧
       n = (w + length lit
            + run_length is_space_or_dot (drop (w + length lit) s))%nat.
Proof.
  induction k as [|k IH]; simpl.
  - case_match; [|done]. intros [= <-]. by exists 0%nat.
  - case_match eqn:E.
    + intros [= <-]. by exists (S k).
    + intros (w & ? & ? & ?)%IH. exists w. split_and!; [lia|done..].
Qed.

Lemma match_body_from_None (lit s : pystr) (k w : nat) :
  match_body_from lit s k = None → (w ≤ k)%nat →
  match_literal lit (drop w s) = false.
Proof.
  induction k as [|k IH]; simpl.
  - case_match eqn:E; [done|]. intros _ Hw. by replace w with 0%nat by lia.
  - case_match eqn:E; [done|]. intros Hn Hw.
    destruct (decide (w = S k)) as [->|]; [done|]. apply IH; [done|lia].
Qed.

Lemma match_body_Some (lit s : pystr) (n : nat) :
  match_body lit s = Some n → body_match lit s n.
Proof. apply match_body_from_Some. Qed.

Lemma match_body_None (lit s : pystr) (n : nat) :
  match_body lit s = None → ¬ body_match lit s n.
Proof.
  intros Hn (w & Hw & Hlit & _).
  by rewrite (match_body_from_None _ _ _ w Hn Hw) in Hlit.
Qed.

Lemma or_else_None {B} (a b : option B) :
  or_else a b = None ↔ a = None ∧ b = None.
Proof.
  destruct a; simpl.
  - split; [done | by intros [? _]].
  - split; [by intros -> | by intros [_ ->]].
Qed.

(** What [match_here] returns is a match of the pattern. *)
Lemma match_here_Some (lit : pystr) (prev : option ascii) (s : pystr) (n : nat) :
  match_here lit prev s = Some n → pattern_match_here lit prev s n.
Proof.
  unfold match_here.
  match goal with
  | |- or_else ?a1 (or_else ?a2 ?a3) = _ → _ =>
      destruct a1 as [m|] eqn:E1; [|destruct a2 as [m|] eqn:E2]
  end; simpl.
  - intros [= <-]. destruct (at_line_start prev) eqn:E; [|done].
    exists 0%nat, m. split_and!; [by left | by apply match_body_Some | done].
  - intros [= <-]. destruct s as [|c s']; [done|].
    case_bool_decide as Hc; [subst c|done].
    apply fmap_Some in E2 as (m' & Hm & ->).
    exists 1%nat, m'. split_and!; [right; by left | by apply match_body_Some | done].
  - intros E3. destruct s as [|c [|d s']]; try done.
    destruct (bool_decide (c = CR) && bool_decide (d = LF)) eqn:E; [|done].
    apply andb_true_iff in E as [->%bool_decide_eq_true ->%bool_decide_eq_true].
    apply fmap_Some in E3 as (m' & Hm & ->).
    exists 2%nat, m'.
    split_and!; [right; by right | by apply match_body_Some | done].
Qed.

(** When [match_here] returns nothing, the pattern has no match there. *)
Lemma match_here_None (lit : pystr) (prev : option ascii) (s : pystr) (n : nat) :
  match_here lit prev s = None → ¬ pattern_match_here lit prev s n.
Proof.
  unfold match_here. rewrite !or_else_None. intros (E1 & E2 & E3).
  intros (a & m & [[-> Hls] | [[-> Hlf] | (-> & Hcr & Hlf)]] & Hbody & ->).
  - rewrite Hls in E1. by eapply match_body_None.
  - destruct s as [|c s']; [done|]. injection Hlf as ->.
    rewrite bool_decide_eq_true_2 in E2 by done.
    apply fmap_None in E2. by eapply match_body_None.
  - destruct s as [|c [|d s']]; try done.
    injection Hcr as ->. injection Hlf as ->.
    rewrite !bool_decide_eq_true_2 in E3 by done. simpl in E3.
    apply fmap_None in E3. by eapply match_body_None.
Qed.

Lemma char_before_cons (prev : option ascii) (c : ascii) (s : pystr) (j : nat) :
  char_before prev (c :: s) (S j) = char_before (Some c) s j.
Proof. by destruct j. Qed.

(** [search_from] returns the leftmost position at which the pattern
    matches, with the match [match_here] finds there. *)
Lemma search_from_Some (lit : pystr) (prev : option ascii) (s : pystr)
    (pos p e : nat) :
  search_from lit prev s pos = Some (p, e) →
  ∃ i n, p = (pos + i)%nat ∧ e = (p + n)%nat ∧ (i ≤ length s)%nat ∧
         match_here lit (char_before prev s i) (drop i s) = Some n ∧
         ∀ j, (j < i)%nat →
              match_here lit (char_before prev s j) (drop j s) = None.
Proof.
  revert prev pos. induction s as [|c s IH]; intros prev pos; simpl.
  - destruct (match_here lit prev []) as [n|] eqn:E; [|done].
    intros [= <- <-]. exists 0%nat, n. split_and!; [lia | done | done | done | lia].
  - destruct (match_here lit prev (c :: s)) as [n|] eqn:E.
    + intros [= <- <-]. exists 0%nat, n.
      split_and!; [lia | done | lia | done | lia].
    + intros (i & n & -> & -> & Hi & Hm & Hmin)%IH.
      exists (S i), n. rewrite char_before_cons.
      split_and!; [lia | done | lia | done |].
      intros [|j] Hj; [done|]. rewrite char_before_cons. apply Hmin. lia.
Qed.

Lemma search_from_None (lit : pystr) (prev : option ascii) (s : pystr)
    (pos j : nat) :
  search_from lit prev s pos = None → (j ≤ length s)%nat →
  match_here lit (char_before prev s j) (drop j s) = None.
Proof.
  revert prev pos j. induction s as [|c s IH]; intros prev pos j; simpl.
  - destruct (match_here lit prev []) eqn:E; [done|]. intros _ Hj.
    by replace j with 0%nat by lia.
  - destruct (match_here lit prev (c :: s)) eqn:E; [done|]. intros Hn Hj.
    destruct j as [|j]; [done|]. rewrite char_before_cons. simpl.
    eapply IH; [done | lia].
Qed.

(** [heading_search] finds a match of the pattern of the stripped title,
    and no match starts before it. *)
Lemma heading_search_Some (title text : pystr) (p e : nat) :
  heading_search title text = Some (p, e) →
  pattern_match (strip title) text p e ∧
  ∀ p' e', (p' < p)%nat → ¬ pattern_match (strip title) text p' e'.
Proof.
  unfold heading_search.
  intros (i & n & -> & -> & Hi & Hm & Hmin)%search_from_Some. simpl. split.
  - split_and!; [done | lia |].
    replace (i + n - i)%nat with n by lia. by apply match_here_Some.
  - intros p' e' Hp' (_ & _ & Hpm). by eapply match_here_None in Hpm; [|apply Hmin].
Qed.

(** When it finds nothing, the pattern matches nowhere in the text. *)
Lemma heading_search_None (title text : pystr) (p e : nat) :
  heading_search title text = None → ¬ pattern_match (strip title) text p e.
Proof.
  unfold heading_search. intros Hn (Hp & _ & Hpm).
  eapply match_here_None in Hpm; [done|]. by eapply search_from_None.
Qed.

End HeadingPattern.

(** ** The section of a heading (summarizer_backend.py) *)

Section Section_of_heading.
Import SummarizerBackend.

Lemma eq_ci_lower (a b : ascii) : eq_ci a b = true ↔ lower_char a = lower_char b.
Proof. unfold eq_ci. by rewrite bool_decide_eq_true. Qed.

(** A text that reads as the literal, letter case apart, matches it. *)
Lemma match_literal_occurrence (lit occurrence post : pystr) :
  lower occurrence = lower lit →
  match_literal lit (occurrence ++ post) = true.
Proof.
  revert occurrence. induction lit as [|a lit IH]; intros [|b occ]; simpl;
    try done.
  intros [= Hb Hocc]. rewrite andb_true_iff, eq_ci_lower. split; [done|].
  by apply IH.
Qed.

(** A heading that stands at the start of a line is a match of its
    pattern, so the search finds a match, that one or one before it. *)
Lemma line_start_occurrence (lit pre occurrence post : pystr) :
  lower occurrence = lower lit →
  pre = [] ∨ last pre = Some LF →
  ∃ e, pattern_match lit (pre ++ occurrence ++ post) (length pre) e.
Proof.
  intros Hocc Hpre.
  set (text := pre ++ occurrence ++ post).
  set (m := (0 + length lit
             + run_length is_space_or_dot
                 (drop (0 + length lit) (drop 0 (drop (length pre) text))))%nat).
  exists (length pre + m)%nat. split_and!.
  - unfold text. rewrite length_app. lia.
  - lia.
  - replace (length pre + m - length pre)%nat with m by lia.
    exists 0%nat, m. split_and!; [|exists 0%nat; split_and!|done].
    + left. split; [done|].
      destruct Hpre as [->|[pre' ->]%last_Some]; [done|].
      rewrite length_app. simpl.
      replace (length pre' + 1)%nat with (S (length pre')) by lia. simpl.
      unfold text. rewrite <- app_assoc. simpl.
      by rewrite list_lookup_middle.
    + lia.
    + unfold text. rewrite drop_app_length. simpl.
      by apply match_literal_occurrence.
    + done.
Qed.

Lemma heading_search_line_start (title pre occurrence post : pystr) :
  lower occurrence = lower (strip title) →
  pre = [] ∨ last pre = Some LF →
  ∃ s e, heading_search title (pre ++ occurrence ++ post) = Some (s, e) ∧
         (s ≤ length pre)%nat.
Proof.
  intros Hocc Hpre.
  destruct (line_start_occurrence _ _ _ post Hocc Hpre) as [e' Hm].
  destruct (heading_search title (pre ++ occurrence ++ post))
    as [[s e]|] eqn:E.
  - exists s, e. split; [done|].
    apply heading_search_Some in E as [_ Hmin].
    destruct (decide (s ≤ length pre)%nat); [done|].
    exfalso. apply (Hmin (length pre) e'); [lia | done].
  - by eapply heading_search_None in E.
Qed.

(** The loop over the titles: up to the first title that is the topic
    nothing is searched; from there on the first other title that has
    a match in the rest of the text ends the section. *)
Lemma scan_titles_before (full_text selected_topic : pystr) (e : nat)
    (before rest : list pystr) (title : pystr) :
  Forall (λ t, ¬ same_title t selected_topic) before →
  same_title title selected_topic →
  scan_titles full_text selected_topic e (before ++ title :: rest) false
  = scan_titles full_text selected_topic e rest true.
Proof.
  intros Hbefore Htitle. induction Hbefore as [|t before Ht _ IH]; simpl.
  - by rewrite bool_decide_eq_true_2.
  - by rewrite bool_decide_eq_false_2.
Qed.

Lemma scan_titles_found (full_text selected_topic : pystr) (e : nat)
    (rest : list pystr) :
  default (length full_text)
          (scan_titles full_text selected_topic e rest true)
  = section_end full_text selected_topic e rest.
Proof.
  unfold section_end, first_later_heading, slice_from.
  induction rest as [|t rest IH]; simpl; [done|].
  case_bool_decide as Hsame.
  - rewrite decide_False by (intros [Hn _]; by apply Hn). rewrite IH.
    by destruct (list_find _ rest) as [[? ?]|].
  - unfold slice_from.
    destruct (heading_search t (drop e full_text)) as [[s e']|] eqn:E.
    + rewrite decide_True by (split; [done | by eexists]).
      cbv beta iota. by rewrite E.
    + rewrite decide_False by (by intros [_ [? ?]]). rewrite IH.
      by destruct (list_find _ rest) as [[? ?]|].
Qed.

Lemma extracted_section_found (full_text selected_topic : pystr)
    (before rest : list pystr) (title : pystr) (s e : nat) :
  heading_search selected_topic full_text = Some (s, e) →
  Forall (λ t, ¬ same_title t selected_topic) before →
  same_title title selected_topic →
  extracted_section full_text selected_topic (before ++ title :: rest)
  = Some (strip (slice e (section_end full_text selected_topic e rest)
                       full_text)).
Proof.
  intros Hs Hbefore Htitle. unfold extracted_section. rewrite Hs.
  by rewrite scan_titles_before, scan_titles_found.
Qed.

(** Where the section ends, case by case. *)
Lemma section_end_next (full_text selected_topic title : pystr) (e s e' : nat)
    (rest : list pystr) :
  ¬ same_title title selected_topic →
  heading_search title (drop e full_text) = Some (s, e') →
  section_end full_text selected_topic e (title :: rest) = (e + s)%nat.
Proof.
  intros Hsame Hs. unfold section_end, first_later_heading. simpl.
  rewrite decide_True by (split; [done | by rewrite Hs]). by rewrite Hs.
Qed.

Lemma section_end_skip (full_text selected_topic title : pystr) (e : nat)
    (rest : list pystr) :
  same_title title selected_topic ∨
  heading_search title (drop e full_text) = None →
  section_end full_text selected_topic e (title :: rest)
  = section_end full_text selected_topic e rest.
Proof.
  intros Hskip. unfold section_end, first_later_heading. simpl.
  rewrite decide_False.
  - by destruct (list_find _ rest) as [[? ?]|].
  - intros [Hsame [? Hs]]. destruct Hskip; [done | congruence].
Qed.

Lemma section_end_none (full_text selected_topic : pystr) (e : nat)
    (rest : list pystr) :
  Forall (λ title, same_title title selected_topic ∨
                   heading_search title (drop e full_text) = None) rest →
  section_end full_text selected_topic e rest = length full_text.
Proof.
  induction 1 as [|title rest Ht _ IH]; [done|].
  by rewrite section_end_skip.
Qed.

(** A topic that is in the list has a first entry there. *)
Lemma first_same_title_split (selected_topic : pystr) (all_titles : list pystr) :
  selected_topic ∈ all_titles →
  ∃ before title rest,
    all_titles = before ++ title :: rest ∧
    Forall (λ t, ¬ same_title t selected_topic) before ∧
    same_title title selected_topic.
Proof.
  induction all_titles as [|t titles IH]; [by intros ?%elem_of_nil|].
  intros Hin. destruct (decide (same_title t selected_topic)) as [Hsame|Hsame].
  - by exists [], t, titles.
  - apply elem_of_cons in Hin as [->|Hin]; [by destruct Hsame|].
    destruct (IH Hin) as (before & title & rest & -> & Hbefore & Htitle).
    exists (t :: before), title, rest. split_and!; [done | by constructor | done].
Qed.

(** C4, as stated: [gap_doc] has the heading Intro at the start of a
    line, Intro is not the last of the headings, and the heading that
    follows it, Missing, has no occurrence after the match of Intro;
    yet the section does not run to the end of the document: it stops
    before the next heading that does occur, Outro. *)
Lemma get_text_for_topic_next_heading_missing :
  SummarizerBackend.heading_search (str "Intro") gap_doc = Some (0%nat, 6%nat) ∧
  SummarizerBackend.heading_search (str "Missing") (drop 6 gap_doc) = None ∧
  SummarizerBackend.get_text_for_topic gap_doc (str "Intro")
    [str "Intro"; str "Missing"; str "Outro"] = str "hello" ∧
  SummarizerBackend.get_text_for_topic gap_doc (str "Intro")
    [str "Intro"; str "Missing"; str "Outro"] ≠ strip (drop 6 gap_doc) ∧
  ¬ SummarizerBackend.get_text_for_topic gap_doc (str "Intro")
      [str "Intro"; str "Missing"; str "Outro"] `suffix_of` gap_doc.
Proof.
  split_and!; try (vm_compute; reflexivity).
  - vm_compute. discriminate.
  - apply (bool_decide_unpack _). vm_compute. exact I.
Qed.

(** C4, amended. Let the heading stand at the start of a line of the
    text, and let [title] be its first entry in the list of headings.
    Then the search finds a match of its pattern at that line or
    before; the section starts where this match ends and ends where
    the match of the first later heading that occurs in the rest of
    the text starts, at the end of the text when none occurs; and the
    locator returns this section stripped, unless it is shorter than
    50 characters in a text longer than 100. *)
Theorem get_text_for_topic_section
    (full_text selected_topic pre occurrence post title : pystr)
    (all_titles before rest : list pystr) :
  strip selected_topic ≠ [] →
  full_text = pre ++ occurrence ++ post →
  lower occurrence = lower (strip selected_topic) →
  pre = [] ∨ last pre = Some LF →
  all_titles = before ++ title :: rest →
  Forall (λ t, ¬ same_title t selected_topic) before →
  same_title title selected_topic →
  ∃ s e,
    SummarizerBackend.heading_search selected_topic full_text = Some (s, e) ∧
    (s ≤ length pre)%nat ∧
    pattern_match (strip selected_topic) full_text s e ∧
    let section :=
      strip (slice e (section_end full_text selected_topic e rest) full_text) in
    SummarizerBackend.extracted_section full_text selected_topic all_titles = Some section ∧
    SummarizerBackend.get_text_for_topic full_text selected_topic all_titles
    = if (length section <? 50)%nat && (100 <? length full_text)%nat
      then full_text else section.
Proof.
  intros Hsel -> Hocc Hpre -> Hbefore Htitle.
  destruct (heading_search_line_start selected_topic pre occurrence post
              Hocc Hpre) as (s & e & Hs & Hle).
  exists s, e. split_and!; [done | done | by apply heading_search_Some |].
  intros section.
  pose proof (extracted_section_found _ _ _ rest _ _ _ Hs Hbefore Htitle)
    as Hsec.
  split; [done|]. unfold SummarizerBackend.get_text_for_topic. rewrite Hsec.
  rewrite !bool_decide_eq_false_2; [done | | |].
  - intros Hnil. apply (f_equal length) in Hnil.
    apply (f_equal length) in Hocc. unfold lower in Hocc.
    rewrite !length_app in Hnil. rewrite !length_map in Hocc.
    destruct (strip selected_topic); [done|]. simpl in *. lia.
  - by destruct before.
  - by intros ->.
Qed.

Lemma get_text_for_topic_section_witness :
  ∃ s e,
    SummarizerBackend.heading_search (str "Intro") gap_doc = Some (s, e) ∧
    (s ≤ 0)%nat ∧
    pattern_match (strip (str "Intro")) gap_doc s e ∧
    let section :=
      strip (slice e (section_end gap_doc (str "Intro") e
                        [str "Missing"; str "Outro"]) gap_doc) in
    SummarizerBackend.extracted_section gap_doc (str "Intro")
      [str "Intro"; str "Missing"; str "Outro"] = Some section ∧
    SummarizerBackend.get_text_for_topic gap_doc (str "Intro")
      [str "Intro"; str "Missing"; str "Outro"]
    = if (length section <? 50)%nat && (100 <? length gap_doc)%nat
      then gap_doc else section.
Proof.
  apply (get_text_for_topic_section gap_doc (str "Intro") [] (str "Intro")
           (nl ++ str "hello" ++ nl ++ str "Outro" ++ nl ++ str "bye")
           (str "Intro") [str "Intro"; str "Missing"; str "Outro"] []
           [str "Missing"; str "Outro"]).
  - vm_compute. discriminate.
  - reflexivity.
  - reflexivity.
  - left. reflexivity.
  - reflexivity.
  - constructor.
  - reflexivity.
Defined.

End Section_of_heading.

(** ** The section of a heading (app.py)

    The version of app.py looks for the texts themselves, anywhere in
    a line: the section starts at the first occurrence of the topic,
    letter case apart, heading included, and ends at the first
    occurrence after that position of the title that follows the topic
    in the list, at the end of the text when it has none. *)
Lemma app_get_text_for_topic_section
    (full_text selected_topic next_topic : pystr) (all_titles : list pystr)
    (start_index current : nat) :
  selected_topic ≠ [] →
  ¬ substring_of (str "entire document") (lower selected_topic) →
  find (lower full_text) (lower selected_topic) 0 = Some start_index →
  list_index all_titles selected_topic = Ok current →
  all_titles !! (current + 1)%nat = Some next_topic →
  App.get_text_for_topic full_text selected_topic all_titles
  = Ok (slice start_index
          (default (length full_text)
             (find (lower full_text) (lower next_topic) (start_index + 1)))
          full_text).
Proof.
  intros Hsel Hentire Hstart Hcur Hnext. unfold App.get_text_for_topic.
  rewrite bool_decide_eq_false_2 by done.
  destruct (contains _ _) eqn:E;
    [by apply contains_substring_of in E|]. simpl.
  unfold str_index, list_get. rewrite Hstart, Hcur. simpl.
  rewrite decide_True by (by apply lookup_lt_Some in Hnext).
  rewrite Hnext. simpl.
  by destruct (find (lower full_text) (lower next_topic) (start_index + 1)).
Qed.

Lemma app_get_text_for_topic_next_heading_missing :
  App.get_text_for_topic gap_doc (str "Intro")
    [str "Intro"; str "Missing"; str "Outro"] = Ok gap_doc.
Proof. vm_compute. reflexivity. Qed.


(** * Further properties *)

(** ** The scheduler: what the week holds *)

Section Week.
Context {A : Type}.

Lemma bind_lookup_total_insert_notin (m : gmap string (list A)) (d : string)
    (v : list A) (days : list string) :
  d ∉ days →
  days ≫= (λ d', <[d:=v]> m !!! d') = days ≫= (λ d', m !!! d').
Proof.
  induction days as [|d0 days IH]; [done|].
  intros [Hne Hd]%not_elem_of_cons. rewrite !bind_cons.
  by rewrite lookup_total_insert_ne, IH.
Qed.

Lemma bind_lookup_total_append (m : gmap string (list A)) (d : string) (x : A)
    (days : list string) :
  NoDup days → d ∈ days →
  days ≫= (λ d', <[d:=m !!! d ++ [x]]> m !!! d')
  ≡ₚ x :: days ≫= (λ d', m !!! d').
Proof.
  induction 1 as [|d0 days Hd0 Hnd IH]; [by intros ?%elem_of_nil|].
  intros Hd. rewrite !bind_cons.
  destruct (decide (d0 = d)) as [->|Hne].
  - rewrite lookup_total_insert_eq.
    rewrite bind_lookup_total_insert_notin by done.
    rewrite <- app_assoc. simpl. by rewrite <- Permutation_middle.
  - apply elem_of_cons in Hd as [->|Hd]; [done|].
    rewrite lookup_total_insert_ne by done. rewrite IH by done.
    by rewrite <- Permutation_middle.
Qed.

(** The lists of the seven days hold the entries of the loop, each
    once. *)
Lemma append_task_loop_Permutation (l : list A) :
  week_days ≫= (λ day, (fold_left append_task l (empty_schedule, 0%nat)).1
                         !!! day)
  ≡ₚ l.
Proof.
  induction l as [|x l IH] using rev_ind.
  - cbn [fold_left fst]. by vm_compute.
  - rewrite fold_left_app. cbn [fold_left].
    set (st := fold_left append_task l (empty_schedule, 0%nat)) in *.
    unfold append_task. cbn [fst snd].
    rewrite bind_lookup_total_append.
    + rewrite IH. by rewrite <- Permutation_cons_append.
    + apply week_days_NoDup.
    + apply list_elem_of_lookup_total_2. change (length week_days) with 7%nat.
      euclid7 (st.2). lia.
Qed.

End Week.


(** X1. The sort of the scheduler is stable: the named subjects of any
    one score stand in the sorted list in the order of the form. *)
Theorem schedule_sort_stable (scheduler_topics : list topic) (z : Z) :
  filter (λ u, score u = z)
         (App.sorted_by_score (App.valid_topics scheduler_topics))
  = filter (λ u, score u = z) (App.valid_topics scheduler_topics).
Proof. apply sorted_by_score_stable. Qed.

(** X2. No subject is lost and none is scheduled twice: the tasks of
    the seven days together are the tasks of the named subjects, in
    app.py and in schedule.py. *)
Theorem schedule_holds_each_subject_once (topics : list topic) :
  (∀ schedule, App.generate_schedule topics = Some schedule →
     week_days ≫= (λ day, schedule !!! day)
     ≡ₚ App.task_of <$> App.valid_topics topics) ∧
  week_days ≫= (λ day, Schedule.generate_schedule topics !!! day)
  ≡ₚ Schedule.task_of <$> filter (λ t, name t ≠ []) topics.
Proof.
  split.
  - intros schedule Hs. unfold App.generate_schedule in Hs.
    case_bool_decide; [done|]. injection Hs as <-.
    unfold App.assign_days. rewrite fold_left_append_task_map.
    rewrite append_task_loop_Permutation.
    by rewrite sorted_by_score_Permutation.
  - unfold Schedule.generate_schedule.
    rewrite (fold_left_append_task_filter Schedule.task_of (λ t, name t ≠ [])).
    apply append_task_loop_Permutation.
Qed.

Lemma schedule_holds_each_subject_once_witness :
  ∃ schedule,
    App.generate_schedule sample_subjects = Some schedule ∧
    week_days ≫= (λ day, schedule !!! day)
    ≡ₚ App.task_of <$> App.valid_topics sample_subjects.
Proof.
  eexists. split; [reflexivity|].
  apply (schedule_holds_each_subject_once sample_subjects). reflexivity.
Defined.

Lemma valid_topics_nil (topics : list topic) :
  App.valid_topics topics = [] ↔ Forall (λ t, strip (name t) = []) topics.
Proof.
  unfold App.valid_topics. induction topics as [|t topics IH]; [done|].
  rewrite filter_cons, Forall_cons. case_decide as Ht.
  - split; [done | by intros [? _]].
  - rewrite IH. split; [|by intros [_ ?]].
    intros ?. split; [|done]. by destruct (decide (strip (name t) = [])).
Qed.

(** X3. The scheduler of app.py gives its warning, and no schedule,
    exactly when every subject has a blank name (empty or white space
    only); so it does for the three blank entries a session starts
    with. *)
Theorem generate_schedule_warning (scheduler_topics : list topic) :
  (App.generate_schedule scheduler_topics = None
   ↔ Forall (λ t, strip (name t) = []) scheduler_topics) ∧
  App.generate_schedule AppSchedulerForm.initial_topics = None.
Proof.
  split; [|reflexivity].
  rewrite <- valid_topics_nil. unfold App.generate_schedule.
  case_bool_decide; split; done.
Qed.

(** X4. Within a day the subjects stand by ascending score: a task
    that comes later in the list of a day is of a subject that scored
    no lower. *)
Theorem schedule_day_order (topics : list topic)
    (schedule : gmap string (list App.task)) (day : string) (j j' : nat)
    (t t' : App.task) :
  App.generate_schedule topics = Some schedule →
  day ∈ week_days →
  (j ≤ j')%nat →
  (schedule !!! day) !! j = Some t →
  (schedule !!! day) !! j' = Some t' →
  ∃ a b, a ∈ App.valid_topics topics ∧ b ∈ App.valid_topics topics ∧
         t = App.task_of a ∧ t' = App.task_of b ∧ score a ≤ score b.
Proof.
  intros Hs [k Hday]%list_elem_of_lookup_1 Hj Ht Ht'.
  unfold App.generate_schedule in Hs.
  case_bool_decide; [done|]. injection Hs as <-.
  rewrite (assign_days_lookup _ _ _ Hday) in Ht, Ht'.
  apply fmap_Some in Ht as (a & Ha & ->).
  apply fmap_Some in Ht' as (b & Hb & ->).
  exists a, b. split_and!; try done.
  - rewrite <- (sorted_by_score_Permutation (App.valid_topics topics)).
    by eapply list_elem_of_lookup_2.
  - rewrite <- (sorted_by_score_Permutation (App.valid_topics topics)).
    by eapply list_elem_of_lookup_2.
  - eapply StronglySorted_lookup_le;
      [apply sorted_by_score_ascending | | exact Ha | exact Hb]. lia.
Qed.

Lemma schedule_day_order_witness :
  ∃ a b, a ∈ App.valid_topics (sample_subjects ++ sample_subjects ++ sample_subjects) ∧
         b ∈ App.valid_topics (sample_subjects ++ sample_subjects ++ sample_subjects) ∧
         App.Task (str "Math") "High" "90 min" = App.task_of a ∧
         App.Task (str "Art") "Low" "30 min" = App.task_of b ∧
         score a ≤ score b.
Proof.
  eapply (schedule_day_order (sample_subjects ++ sample_subjects ++ sample_subjects)
            _ "Monday" 0 1).
  - reflexivity.
  - apply (bool_decide_unpack _). vm_compute. exact I.
  - lia.
  - vm_compute. reflexivity.
  - vm_compute. reflexivity.
Defined.

(** X5. Whenever there is a schedule, Monday starts with a subject of
    the lowest score of all. *)
Theorem schedule_monday_first_weakest (topics : list topic)
    (schedule : gmap string (list App.task)) :
  App.generate_schedule topics = Some schedule →
  ∃ a, (schedule !!! "Monday"%string) !! 0%nat = Some (App.task_of a) ∧
       a ∈ App.valid_topics topics ∧
       ∀ b, b ∈ App.valid_topics topics → score a ≤ score b.
Proof.
  intros Hs. unfold App.generate_schedule in Hs.
  case_bool_decide as Hvalid; [done|]. injection Hs as <-.
  set (valid := App.valid_topics topics) in *.
  pose proof (sorted_by_score_Permutation valid) as Hperm.
  destruct (App.sorted_by_score valid) as [|a sorted] eqn:E.
  { by apply Permutation_nil_l in Hperm. }
  exists a. split_and!.
  - by rewrite (assign_days_lookup _ 0 "Monday").
  - rewrite <- Hperm. by left.
  - intros b Hb. rewrite <- Hperm in Hb.
    apply list_elem_of_lookup_1 in Hb as [i Hi].
    eapply (StronglySorted_lookup_le (a :: sorted) 0 i);
      [rewrite <- E; apply sorted_by_score_ascending | lia | done | done].
Qed.

Lemma schedule_monday_first_weakest_witness :
  ∃ a, a ∈ App.valid_topics sample_subjects ∧
       ∀ b, b ∈ App.valid_topics sample_subjects → score a ≤ score b.
Proof.
  destruct (schedule_monday_first_weakest sample_subjects
              (App.assign_days (App.sorted_by_score
                                  (App.valid_topics sample_subjects))))
    as (a & _ & Ha & Hmin); [reflexivity|].
  by exists a.
Defined.

(** X6. After the list of the form has followed the number asked for,
    it has that many entries, so that the form can read and write the
    entries 0 .. num_topics - 1; the entries it had at these positions
    are kept and the new ones are blank. *)
Theorem adjust_topics_entries (num_topics : nat) (scheduler_topics : list topic) :
  length (AppSchedulerForm.adjust_topics num_topics scheduler_topics)
  = num_topics ∧
  ∀ i, (i < num_topics)%nat →
    AppSchedulerForm.adjust_topics num_topics scheduler_topics !! i
    = Some (default AppSchedulerForm.blank_topic (scheduler_topics !! i)).
Proof.
  unfold AppSchedulerForm.adjust_topics. repeat case_decide.
  - split; [rewrite length_app, length_replicate; lia|]. intros i Hi.
    destruct (decide (i < length scheduler_topics)%nat) as [Hlt|Hge].
    + rewrite lookup_app_l by done.
      by destruct (lookup_lt_is_Some_2 scheduler_topics i Hlt) as [t ->].
    + rewrite lookup_app_r by lia.
      rewrite (proj2 (lookup_ge_None scheduler_topics i)) by lia.
      apply lookup_replicate_2. lia.
  - split; [rewrite length_take; lia|]. intros i Hi.
    rewrite lookup_take_lt by done.
    by destruct (lookup_lt_is_Some_2 scheduler_topics i ltac:(lia)) as [t ->].
  - split; [lia|]. intros i Hi.
    by destruct (lookup_lt_is_Some_2 scheduler_topics i ltac:(lia)) as [t ->].
Qed.

Lemma adjust_topics_entries_witness :
  AppSchedulerForm.adjust_topics 4 sample_subjects !! 3%nat
  = Some AppSchedulerForm.blank_topic.
Proof.
  apply (adjust_topics_entries 4 sample_subjects). lia.
Defined.

Lemma table_rows_length (day : string) (tasks : list Schedule.task) :
  length (match tasks with
          | [] => [[day; "—"; "—"; "—"; "—"]]
          | y :: l =>
              (λ task, [day; string_of_list_ascii (Schedule.task_topic task);
                        Schedule.priority task;
                        Schedule.recommended_duration task;
                        pretty (Schedule.task_score task) +:+ "%"]) <$> y :: l
          end)%string
  = (1 `max` length tasks)%nat.
Proof. destruct tasks; simpl; [done|]. rewrite length_fmap. lia. Qed.

(** X7. The table of schedule.py has a row for each named subject and
    a row of dashes for each day left without one: as many rows as
    there are named subjects, and never fewer than seven. *)
Theorem table_data_length (topics : list topic) :
  length (ScheduleTable.table_data (Schedule.generate_schedule topics))
  = (7 `max` length (filter (λ t, name t ≠ []) topics))%nat.
Proof.
  unfold ScheduleTable.table_data, week_days.
  rewrite !bind_cons, !length_app. cbv beta.
  rewrite !table_rows_length.
  change (length ([] ≫= _)) with 0%nat.
  unfold Schedule.generate_schedule.
  rewrite (fold_left_append_task_filter Schedule.task_of (λ t, name t ≠ [])).
  rewrite (append_task_loop_length _ 0 "Monday"),
    (append_task_loop_length _ 1 "Tuesday"),
    (append_task_loop_length _ 2 "Wednesday"),
    (append_task_loop_length _ 3 "Thursday"),
    (append_task_loop_length _ 4 "Friday"),
    (append_task_loop_length _ 5 "Saturday"),
    (append_task_loop_length _ 6 "Sunday") by done.
  rewrite length_fmap.
  set (n := length (filter (λ t, name t ≠ []) topics)).
  euclid7 n.
  assert (∀ k, (k < 7)%nat →
            (n + 6 - k) / 7 = n / 7 + (if decide (k < n mod 7) then 1 else 0))%nat
    as Hk.
  { intros k Hk. case_decide.
    - symmetry. apply Nat.div_unique with (r := (n mod 7 - k - 1)%nat); lia.
    - symmetry. apply Nat.div_unique with (r := (n mod 7 + 6 - k)%nat); lia. }
  rewrite !Hk by lia.
  repeat case_decide; lia.
Qed.

(** X8. A better score never asks for more: the recommended duration
    does not grow with the score, in app.py and in schedule.py. *)
Theorem assign_priority_and_duration_antitone (score score' : Z) :
  score ≤ score' →
  (App.assign_priority_and_duration score').2
  ≤ (App.assign_priority_and_duration score).2 ∧
  (Schedule.assign_priority_and_duration score').2
  ≤ (Schedule.assign_priority_and_duration score).2.
Proof.
  intros Hle. unfold App.assign_priority_and_duration,
    Schedule.assign_priority_and_duration.
  repeat case_match; simpl; lia.
Qed.

Lemma assign_priority_and_duration_antitone_witness :
  (App.assign_priority_and_duration 85).2
  ≤ (App.assign_priority_and_duration 59).2 ∧
  (Schedule.assign_priority_and_duration 85).2
  ≤ (Schedule.assign_priority_and_duration 59).2.
Proof. apply (assign_priority_and_duration_antitone 59 85). lia. Defined.

(** X9. Higher marks never give a lower level: [classify_student] is
    monotone in the rank of the levels. *)
Theorem classify_student_monotone (marks marks' : Z) :
  marks ≤ marks' →
  ∃ level level',
    classify_student marks = level_label level ∧
    classify_student marks' = level_label level' ∧
    (level_rank level ≤ level_rank level')%nat.
Proof.
  intros Hle. unfold classify_student.
  destruct (marks <? 50) eqn:E1; [|destruct (marks <? 70) eqn:E2;
    [|destruct (marks <? 85) eqn:E3; [|destruct (marks <? 95) eqn:E4]]];
  (destruct (marks' <? 50) eqn:F1; [|destruct (marks' <? 70) eqn:F2;
    [|destruct (marks' <? 85) eqn:F3; [|destruct (marks' <? 95) eqn:F4]]]);
  try lia;
  repeat match goal with
         | |- context [(?a <=? ?b)] =>
             let H := fresh in destruct (a <=? b) eqn:H; try lia
         end; simpl;
  first [ by exists NeedsImprovement, NeedsImprovement; simpl; split_and!; try done; lia
        | by exists NeedsImprovement, Average; simpl; split_and!; try done; lia
        | by exists NeedsImprovement, Good; simpl; split_and!; try done; lia
        | by exists NeedsImprovement, Excellent; simpl; split_and!; try done; lia
        | by exists NeedsImprovement, AdvancedLearner; simpl; split_and!; try done; lia
        | by exists Average, Average; simpl; split_and!; try done; lia
        | by exists Average, Good; simpl; split_and!; try done; lia
        | by exists Average, Excellent; simpl; split_and!; try done; lia
        | by exists Average, AdvancedLearner; simpl; split_and!; try done; lia
        | by exists Good, Good; simpl; split_and!; try done; lia
        | by exists Good, Excellent; simpl; split_and!; try done; lia
        | by exists Good, AdvancedLearner; simpl; split_and!; try done; lia
        | by exists Excellent, Excellent; simpl; split_and!; try done; lia
        | by exists Excellent, AdvancedLearner; simpl; split_and!; try done; lia
        | by exists AdvancedLearner, AdvancedLearner; simpl; split_and!; try done; lia ].
Qed.

Lemma classify_student_monotone_witness :
  ∃ level level',
    classify_student 60 = level_label level ∧
    classify_student 90 = level_label level' ∧
    (level_rank level ≤ level_rank level')%nat.
Proof. apply (classify_student_monotone 60 90). lia. Defined.

(** ** The topic locator: what it returns *)

Lemma drop_while_fixed {A} (p : A → bool) (l : list A) :
  match l with [] => True | x :: _ => p x = false end →
  drop_while p l = l.
Proof. destruct l as [|x l]; simpl; [done|]. by intros ->. Qed.

Lemma drop_while_head {A} (p : A → bool) (l : list A) :
  match drop_while p l with [] => True | x :: _ => p x = false end.
Proof.
  induction l as [|x l IH]; simpl; [done|].
  destruct (p x) eqn:E; [done|]. simpl. done.
Qed.

Lemma lstrip_idemp (s : pystr) : lstrip (lstrip s) = lstrip s.
Proof. apply drop_while_fixed, drop_while_head. Qed.

Lemma rstrip_idemp (s : pystr) : rstrip (rstrip s) = rstrip s.
Proof. unfold rstrip. by rewrite reverse_involutive, lstrip_idemp. Qed.

Lemma lstrip_rstrip_lstrip (s : pystr) :
  lstrip (rstrip (lstrip s)) = rstrip (lstrip s).
Proof.
  apply drop_while_fixed.
  pose proof (drop_while_head is_space s) as Hhead. fold (lstrip s) in Hhead.
  destruct (rstrip_prefix (lstrip s)) as [k Hk].
  destruct (rstrip (lstrip s)) as [|x t]; [done|].
  by rewrite Hk in Hhead.
Qed.

(** [s.strip().strip() == s.strip()] *)
Lemma strip_idemp (s : pystr) : strip (strip s) = strip s.
Proof.
  unfold strip at 1 2. by rewrite lstrip_rstrip_lstrip, rstrip_idemp.
Qed.

Lemma slice_prefix_of_drop (a b : nat) (s : pystr) :
  slice a b s `prefix_of` drop a s.
Proof.
  unfold slice. revert a b. induction s as [|c s IH]; intros a b.
  - rewrite take_nil, drop_nil. done.
  - destruct b as [|b]; [rewrite take_0, drop_nil; apply prefix_nil|].
    destruct a as [|a]; simpl; [|apply IH].
    apply prefix_cons. exists (drop b s). by rewrite take_drop.
Qed.

(** X10. What the locator of summarizer_backend.py returns is the whole
    document or a text without white space at either end; for a
    document of more than 100 characters it is the whole document or a
    text of at least 50; and when the heading is found it is the whole
    document or lies in the text after the match of the heading. *)
Theorem get_text_for_topic_result
    (full_text selected_topic : pystr) (all_titles : list pystr) :
  let text :=
    SummarizerBackend.get_text_for_topic full_text selected_topic all_titles in
  (text = full_text ∨ strip text = text) ∧
  ((100 < length full_text)%nat → text = full_text ∨ (50 ≤ length text)%nat) ∧
  (∀ s e, SummarizerBackend.heading_search selected_topic full_text
          = Some (s, e) →
          text = full_text ∨ substring_of text (drop e full_text)).
Proof.
  intros text. unfold text, SummarizerBackend.get_text_for_topic.
  case_match; [by split_and!; intros; left|].
  unfold SummarizerBackend.extracted_section.
  destruct (SummarizerBackend.heading_search selected_topic full_text)
    as [[s e]|]; [|by split_and!; intros; left].
  destruct ((length _ <? 50)%nat && (_ <? _)%nat) eqn:E;
    [by split_and!; intros; left|].
  split_and!.
  - right. apply strip_idemp.
  - intros Hlong. right. apply andb_false_iff in E as [E|E].
    + by apply Nat.ltb_ge in E.
    + apply Nat.ltb_ge in E. lia.
  - intros s' e' [= <- <-]. right.
    eapply substring_of_trans; [apply strip_substring_of|].
    destruct (slice_prefix_of_drop e
                (default (length full_text)
                   (SummarizerBackend.scan_titles full_text selected_topic
                      e all_titles false)) full_text) as [k Hk].
    by exists [], k.
Qed.

Lemma get_text_for_topic_result_witness :
  SummarizerBackend.get_text_for_topic long_doc (str "Chapter2")
    [str "Intro"; str "Chapter2"] = long_doc ∨
  (50 ≤ length (SummarizerBackend.get_text_for_topic long_doc (str "Chapter2")
                  [str "Intro"; str "Chapter2"]))%nat.
Proof.
  apply (get_text_for_topic_result long_doc (str "Chapter2")
           [str "Intro"; str "Chapter2"]).
  vm_compute. lia.
Defined.

Section App_locator_any_characters.
Context {char : Type} `{!EqDecision char}.
Variable lower : list char → list char.
Variable entire_document : list char.

Lemma unicode_startswith_length (sub s : list char) :
  AppUnicode.startswith sub s = true → (length sub ≤ length s)%nat.
Proof.
  revert s. induction sub as [|a sub IH]; intros [|b s]; simpl;
    try done; try lia.
  intros [_ E]%andb_true_iff. apply IH in E. lia.
Qed.

Lemma unicode_find_at_Some (sub s : list char) (off i : nat) :
  AppUnicode.find_at sub s off = Some i →
  (off ≤ i)%nat ∧ (i - off + length sub ≤ length s)%nat ∧
  (sub = [] → i = off).
Proof.
  revert off. induction s as [|c s IH]; intros off; simpl.
  - destruct sub as [|a sub]; simpl; [|done].
    intros [= <-]. split_and!; [lia | simpl; lia | done].
  - destruct (AppUnicode.startswith sub (c :: s)) eqn:E.
    + intros [= <-]. apply unicode_startswith_length in E. simpl in E.
      split_and!; [lia | lia | done].
    + intros (Hle & Hlen & Hnil)%IH. split_and!; [lia | lia |].
      intros ->. by destruct s.
Qed.

Lemma unicode_find_Some (s sub : list char) (start i : nat) :
  AppUnicode.find s sub start = Some i →
  (start ≤ i)%nat ∧ (i + length sub ≤ length s)%nat ∧ (sub = [] → i = start).
Proof.
  unfold AppUnicode.find. case_decide as Hs; [|done].
  intros (Hle & Hlen & Hnil)%unicode_find_at_Some.
  rewrite length_drop in Hlen. split_and!; [done | lia | done].
Qed.

Lemma unicode_list_index_from_result (l : list (list char)) (x : list char)
    (i : nat) :
  AppUnicode.list_index_from l x i = Raise ValueError ∨
  ∃ n, AppUnicode.list_index_from l x i = Ok n.
Proof.
  revert i. induction l as [|y l IH]; intros i; simpl; [by left|].
  case_decide; [right; eauto | apply IH].
Qed.

(** X11. When putting the document in lower case does not change its
    length, which is so for every text of the characters U+0000 to
    U+00FF, the locator of app.py never returns an empty text on a
    document that is not empty: a section it cuts out has at least one
    character. (Where [str.lower] lengthens the text, as for U+0130,
    the positions found in the lower-case text no longer fit the
    document, and the property is lost.) *)
Theorem app_get_text_for_topic_nonempty
    (full_text selected_topic text : list char)
    (all_titles : list (list char)) :
  length (lower full_text) = length full_text →
  full_text ≠ [] →
  AppUnicode.get_text_for_topic lower entire_document full_text
    selected_topic all_titles = Ok text →
  text ≠ [].
Proof.
  intros Hlower Hft. unfold AppUnicode.get_text_for_topic.
  case_match; [by intros [= <-]|].
  unfold AppUnicode.str_index, AppUnicode.list_index, AppUnicode.list_get.
  destruct (AppUnicode.find (lower full_text) (lower selected_topic) 0)
    as [start_index|] eqn:Hstart; simpl; [|by intros [= <-]].
  apply unicode_find_Some in Hstart as (_ & Hlen & Hnil).
  assert (start_index < length full_text)%nat as Hlt.
  { rewrite Hlower in Hlen.
    destruct (lower selected_topic) as [|a l]; simpl in Hlen; [|lia].
    rewrite Hnil by done. destruct full_text; [done | simpl; lia]. }
  assert (∀ end_index, (start_index < end_index)%nat →
            slice start_index end_index full_text ≠ []) as Hslice.
  { intros end_index He Hnil'. apply (f_equal length) in Hnil'.
    unfold slice in Hnil'. rewrite length_drop, length_take in Hnil'.
    simpl in Hnil'. lia. }
  destruct (unicode_list_index_from_result all_titles selected_topic 0)
    as [->|[cur ->]]; simpl; [by intros [= <-]|].
  case_decide; simpl; [|intros [= <-]; apply Hslice; lia].
  destruct (all_titles !! (cur + 1)%nat) as [next_topic|]; simpl;
    [|by intros [= <-]].
  destruct (AppUnicode.find (lower full_text) (lower next_topic)
              (start_index + 1)) as [end_index|] eqn:Hend; simpl;
    intros [= <-]; apply Hslice; [|lia].
  apply unicode_find_Some in Hend as (? & _). lia.
Qed.

End App_locator_any_characters.

(** At the 8-bit characters the locator over any characters is the one
    of [App]. *)
Lemma app_unicode_get_text_for_topic
    (full_text selected_topic : pystr) (all_titles : list pystr) :
  AppUnicode.get_text_for_topic lower (str "entire document") full_text
    selected_topic all_titles
  = App.get_text_for_topic full_text selected_topic all_titles.
Proof. reflexivity. Qed.

Lemma app_get_text_for_topic_nonempty_witness :
  str "Intro" ++ nl ++ str "hello world" ++ nl ≠ [].
Proof.
  apply (app_get_text_for_topic_nonempty lower (str "entire document")
           intro_doc (str "Intro") _ [str "Intro"; str "Chapter2"]).
  - vm_compute. reflexivity.
  - vm_compute. discriminate.
  - vm_compute. reflexivity.
Defined.

(** ** The topic locator: letter case and surrounding white space *)

Section Case_insensitive.
Import SummarizerBackend.

Lemma match_literal_lower (lit lit' s : pystr) :
  lower lit = lower lit' → match_literal lit s = match_literal lit' s.
Proof.
  revert lit' s. induction lit as [|a lit IH]; intros [|a' lit'] s; try done.
  simpl. intros [= Ha Hlit]. destruct s as [|b s]; [done|].
  unfold eq_ci. rewrite Ha. by rewrite (IH lit' s).
Qed.

Lemma lower_length (s : pystr) : length (lower s) = length s.
Proof. apply length_map. Qed.

Lemma match_body_lower (lit lit' s : pystr) :
  lower lit = lower lit' → match_body lit s = match_body lit' s.
Proof.
  intros Hlit. unfold match_body.
  assert (length lit = length lit') as Hlen
    by (by rewrite <- (lower_length lit), Hlit, lower_length).
  induction (run_length is_space s) as [|k IH]; simpl;
    rewrite (match_literal_lower lit lit') by done; rewrite Hlen;
    [done | by rewrite IH].
Qed.

Lemma match_here_lower (lit lit' : pystr) (prev : option ascii) (s : pystr) :
  lower lit = lower lit' → match_here lit prev s = match_here lit' prev s.
Proof.
  intros Hlit. unfold match_here.
  rewrite (match_body_lower lit lit' s) by done.
  destruct s as [|c [|d s']]; try done.
  - by rewrite (match_body_lower lit lit' []).
  - by rewrite (match_body_lower lit lit' (d :: s')),
      (match_body_lower lit lit' s').
Qed.

Lemma search_from_lower (lit lit' : pystr) (prev : option ascii) (s : pystr)
    (pos : nat) :
  lower lit = lower lit' →
  search_from lit prev s pos = search_from lit' prev s pos.
Proof.
  intros Hlit. revert prev pos. induction s as [|c s IH]; intros prev pos;
    simpl; rewrite (match_here_lower lit lit') by done; [done|].
  by rewrite IH.
Qed.

Lemma scan_titles_lower (full_text selected_topic selected_topic' : pystr)
    (e : nat) (titles : list pystr) (found : bool) :
  lower (strip selected_topic) = lower (strip selected_topic') →
  scan_titles full_text selected_topic e titles found
  = scan_titles full_text selected_topic' e titles found.
Proof.
  intros Hsel. revert found.
  induction titles as [|t titles IH]; intros found; simpl; [done|].
  rewrite Hsel, (IH true), (IH found). done.
Qed.

(** X12. On texts of the characters U+0000 to U+00FF, for which
    [re.IGNORECASE] and [str.lower] agree, the locator of
    summarizer_backend.py takes the selected topic up to letter case
    and surrounding white space: two selections that are equal once
    stripped and put in lower case give the same text. *)
Theorem get_text_for_topic_case_insensitive
    (full_text selected_topic selected_topic' : pystr)
    (all_titles : list pystr) :
  selected_topic ≠ [] → selected_topic' ≠ [] →
  lower (strip selected_topic) = lower (strip selected_topic') →
  get_text_for_topic full_text selected_topic all_titles
  = get_text_for_topic full_text selected_topic' all_titles.
Proof.
  intros Hsel Hsel' Heq. unfold get_text_for_topic.
  rewrite (bool_decide_eq_false_2 (selected_topic = [])) by done.
  rewrite (bool_decide_eq_false_2 (selected_topic' = [])) by done. simpl.
  case_match; [done|].
  unfold extracted_section, heading_search.
  rewrite (search_from_lower _ _ _ _ _ Heq).
  destruct (search_from _ _ _ _) as [[s e]|]; [|done].
  by rewrite (scan_titles_lower _ _ _ _ _ _ Heq).
Qed.

Lemma get_text_for_topic_case_insensitive_witness :
  get_text_for_topic intro_doc (str "Intro") [str "Intro"; str "Chapter2"]
  = get_text_for_topic intro_doc (str "  INTRO ") [str "Intro"; str "Chapter2"].
Proof.
  apply (get_text_for_topic_case_insensitive intro_doc (str "Intro")
           (str "  INTRO ") [str "Intro"; str "Chapter2"]).
  - vm_compute. discriminate.
  - vm_compute. discriminate.
  - vm_compute. reflexivity.
Defined.

End Case_insensitive.


(** ** The titles, the summary and the chat (app.py) *)

Section App_functions.
Import PyVal AppFunctions.
Variable generate_content : option pystr → pystr → option Qna.json → option pystr.
Variable json_loads : pystr → option Qna.json.
Variable GEMINI_API_KEY : pystr.

Lemma elem_of_clean_titles (min_length : nat) (items : list Qna.json) (t : pystr) :
  t ∈ clean_titles min_length items →
  ∃ s, Qna.JString s ∈ items ∧ t = strip (str s) ∧ (min_length < length t)%nat.
Proof.
  unfold clean_titles. intros (x & Hx & Ht)%list_elem_of_omap.
  destruct x as [| | |s| |]; try done.
  case_match eqn:E; [|done]. injection Ht as <-.
  apply Nat.ltb_lt in E. by exists s.
Qed.

(** X13. Whatever the model answers, each title that
    [extract_titles_from_pdf_multimodal] returns is a text of the
    answer stripped of white space at both ends, and has more than 3
    characters; so no title is empty or blank. *)
Theorem extract_titles_clean (pdf_file_part t : pystr) :
  t ∈ extract_titles_from_pdf_multimodal generate_content json_loads
        GEMINI_API_KEY pdf_file_part →
  strip t = t ∧ (3 < length t)%nat ∧ t ≠ [].
Proof.
  unfold extract_titles_from_pdf_multimodal.
  destruct (call_gemini_api_json _ _ _ _ _ _) as [[| | | |items|]|];
    try by intros ?%elem_of_nil.
  intros (s & _ & -> & Hlen)%elem_of_clean_titles.
  split_and!; [apply strip_idemp | done |].
  intros Hnil. rewrite Hnil in Hlen. simpl in Hlen. lia.
Qed.

Lemma call_gemini_api_text_key_ok (prompt : pystr) (file_part : option pystr) :
  GEMINI_API_KEY ≠ [] →
  ¬ substring_of (str "YOUR_API_KEY") GEMINI_API_KEY →
  call_gemini_api_text generate_content GEMINI_API_KEY prompt file_part
  = (λ response_text,
       {| candidates :=
            [{| content := {| parts := [{| text := response_text |}] |} |}] |})
    <$> generate_content file_part prompt None.
Proof.
  intros Hkey Hplaceholder. unfold call_gemini_api_text.
  rewrite bool_decide_eq_false_2 by done.
  destruct (contains _ _) eqn:E; [by apply contains_substring_of in E|].
  simpl. by destruct (generate_content _ _ _).
Qed.

Lemma call_gemini_api_text_response (prompt : pystr) (file_part : option pystr)
    (result : response) :
  call_gemini_api_text generate_content GEMINI_API_KEY prompt file_part
  = Some result →
  ∃ answer, generate_content file_part prompt None = Some answer ∧
            response_text result = Returns answer.
Proof.
  unfold call_gemini_api_text. case_match; [done|].
  destruct (generate_content _ _ _) as [answer|]; [|done].
  intros [= <-]. by exists answer.
Qed.

(** X14. [summarize_text_with_gemini] never raises. For a text that is
    blank it returns its error message whatever the model would say;
    otherwise it returns the text of the model unchanged when the call
    succeeds, and the other error message when it fails. *)
Theorem summarize_text_with_gemini_result
    (text_to_summarize summary_type : pystr)
    (student_classification : option string) :
  let summary :=
    summarize_text_with_gemini generate_content GEMINI_API_KEY
      text_to_summarize summary_type student_classification in
  let prompt :=
    summary_prompt text_to_summarize summary_type student_classification in
  (∃ s, summary = Returns s) ∧
  (strip text_to_summarize = [] →
   summary = Returns (str "Error: No text was provided for summarization.")) ∧
  (strip text_to_summarize ≠ [] → GEMINI_API_KEY ≠ [] →
   ¬ substring_of (str "YOUR_API_KEY") GEMINI_API_KEY →
   ∀ answer, generate_content None prompt None = Some answer →
             summary = Returns answer) ∧
  (strip text_to_summarize ≠ [] →
   generate_content None prompt None = None →
   summary = Returns (str "Error generating summary.")).
Proof.
  intros summary prompt. unfold summary, summarize_text_with_gemini.
  fold prompt. split_and!.
  - case_bool_decide; [by eexists|].
    destruct (call_gemini_api_text _ _ _ _) as [result|] eqn:E; [|by eexists].
    apply call_gemini_api_text_response in E as (answer & _ & ->). by eexists.
  - intros Hblank. by rewrite bool_decide_eq_true_2.
  - intros Htext Hkey Hplaceholder answer Hanswer.
    rewrite bool_decide_eq_false_2 by done.
    rewrite call_gemini_api_text_key_ok by done. by rewrite Hanswer.
  - intros Htext Hnone. rewrite bool_decide_eq_false_2 by done.
    unfold call_gemini_api_text.
    destruct (bool_decide (GEMINI_API_KEY = []) || contains _ _); [done|].
    by rewrite Hnone.
Qed.

End App_functions.

Lemma extract_titles_clean_witness :
  strip (str "Introduction") = str "Introduction" ∧
  (3 < length (str "Introduction"))%nat ∧ str "Introduction" ≠ [].
Proof.
  apply (extract_titles_clean sample_generate_content sample_json_loads
           sample_key (str "%PDF") (str "Introduction")).
  vm_compute. constructor.
Defined.

Lemma summarize_text_with_gemini_result_witness :
  AppFunctions.summarize_text_with_gemini sample_generate_content sample_key
    (str "   ") (str "quick") None
  = PyVal.Returns (str "Error: No text was provided for summarization.") ∧
  AppFunctions.summarize_text_with_gemini sample_generate_content sample_key
    intro_doc (str "quick") None
  = PyVal.Returns (str "  Introduction  ").
Proof.
  split.
  - destruct (summarize_text_with_gemini_result sample_generate_content
                sample_key (str "   ") (str "quick") None) as (_ & H & _).
    apply H. vm_compute. reflexivity.
  - destruct (summarize_text_with_gemini_result sample_generate_content
                sample_key intro_doc (str "quick") None) as (_ & _ & H & _).
    apply H.
    + vm_compute. discriminate.
    + vm_compute. discriminate.
    + intros H'%contains_substring_of. vm_compute in H'. discriminate.
    + reflexivity.
Defined.

Lemma string_of_list_ascii_ne (l : pystr) (s : string) :
  l ≠ str s → string_of_list_ascii l ≠ s.
Proof.
  intros Hne <-. apply Hne. unfold str.
  by rewrite list_ascii_of_string_of_list_ascii.
Qed.

(** X15. The instruction of the summary: a depth that is none of
    quick, medium and detailed, letter case apart, is read as medium;
    and for the level of every mark the instruction is that of the
    depth followed by a clause for this level, which is not empty. *)
Theorem base_prompt_levels (summary_type : pystr) (marks : Z) :
  (lower summary_type ∉ [str "quick"; str "medium"; str "detailed"] →
   ∀ student_classification,
     AppFunctions.base_prompt summary_type student_classification
     = AppFunctions.base_prompt (str "medium") student_classification) ∧
  ∃ clause,
    clause ≠ ""%string ∧
    AppFunctions.personalization_prompts !! classify_student marks
    = Some clause ∧
    AppFunctions.base_prompt summary_type (Some (classify_student marks))
    = (AppFunctions.base_prompt summary_type None +:+ clause)%string.
Proof.
  split.
  - intros Hdepth c. unfold AppFunctions.base_prompt.
    assert (AppFunctions.prompts !! string_of_list_ascii (lower summary_type)
            = None) as ->; [|done].
    apply not_elem_of_cons in Hdepth as [H1 Hdepth].
    apply not_elem_of_cons in Hdepth as [H2 Hdepth].
    apply not_elem_of_cons in Hdepth as [H3 _].
    apply string_of_list_ascii_ne in H1, H2, H3.
    unfold AppFunctions.prompts. simpl.
    by rewrite !lookup_insert_ne, lookup_empty.
  - unfold AppFunctions.base_prompt.
    destruct (classify_student_is_level marks) as [level ->].
    destruct level; eexists; (split_and!; [|reflexivity|reflexivity]); done.
Qed.

Lemma base_prompt_levels_witness :
  AppFunctions.base_prompt (str "Extended") None
  = AppFunctions.base_prompt (str "medium") None.
Proof.
  apply (base_prompt_levels (str "Extended") 0).
  apply (bool_decide_unpack _). vm_compute. exact I.
Defined.

(** ** The chat (app.py) *)

Section Chat.
Import PyVal AppFunctions.
Variable generate_content : option pystr → pystr → option Qna.json → option pystr.
Variable GEMINI_API_KEY : pystr.

Lemma get_chatbot_response_returns (user_input : pystr)
    (chat_history : list message) (context_text : pystr) :
  ∃ response,
    get_chatbot_response generate_content GEMINI_API_KEY user_input
      chat_history context_text = Returns response.
Proof.
  unfold get_chatbot_response.
  destruct (call_gemini_api_text _ _ _ _) as [result|] eqn:E; [|by eexists].
  apply call_gemini_api_text_response in E as (answer & _ & ->). by eexists.
Qed.

Lemma chat_turn_appends (pdf_text prompt : pystr) (chat_history : list message) :
  prompt ≠ [] →
  ∃ response,
    chat_turn generate_content GEMINI_API_KEY pdf_text prompt chat_history
    = chat_history ++ [Message "user" prompt; Message "assistant" response].
Proof.
  intros Hprompt. unfold chat_turn. rewrite bool_decide_eq_false_2 by done.
  destruct (get_chatbot_response_returns prompt
              (chat_history ++ [Message "user" prompt]) pdf_text)
    as [response ->].
  exists response. by rewrite <- app_assoc.
Qed.

(** X16. The chat only grows, by a question and its answer at a time:
    after the messages [prompts], none of them empty, the history is
    what it was, followed for each message in turn by the message of
    the user and one answer of the assistant; no exception cuts a turn
    short. *)
Theorem chat_history_alternates (pdf_text : pystr) (prompts : list pystr)
    (chat_history : list message) :
  Forall (λ prompt, prompt ≠ []) prompts →
  ∃ responses,
    length responses = length prompts ∧
    fold_left (λ history prompt,
                 chat_turn generate_content GEMINI_API_KEY pdf_text prompt
                           history)
              prompts chat_history
    = chat_history
      ++ mjoin (zip_with (λ prompt response,
                            [Message "user" prompt;
                             Message "assistant" response])
                         prompts responses).
Proof.
  intros Hprompts. revert chat_history.
  induction Hprompts as [|prompt prompts Hprompt _ IH]; intros chat_history.
  - exists []. split; [done|]. simpl. by rewrite app_nil_r.
  - simpl. destruct (chat_turn_appends pdf_text prompt chat_history Hprompt)
      as [response ->].
    destruct (IH (chat_history ++ [Message "user" prompt;
                                   Message "assistant" response]))
      as (responses & Hlen & ->).
    exists (response :: responses). split; [simpl; lia|].
    simpl. by rewrite <- app_assoc.
Qed.

Lemma join_elem_substring_of (sep x : pystr) (l : list pystr) :
  x ∈ l → substring_of x (join sep l).
Proof.
  induction l as [|y l IH]; [by intros ?%elem_of_nil|].
  intros [->|Hx]%elem_of_cons.
  - destruct l as [|z l]; [apply substring_of_refl|].
    exists [], (sep ++ join sep (z :: l)). done.
  - destruct l as [|z l]; [by apply elem_of_nil in Hx|].
    destruct (IH Hx) as (pre & post & Hj).
    exists (y ++ sep ++ pre), post.
    change (join sep (y :: z :: l)) with (y ++ sep ++ join sep (z :: l)).
    rewrite Hj. by rewrite <- !app_assoc.
Qed.

Lemma substring_of_app_r (x a b : pystr) :
  substring_of x b → substring_of x (a ++ b).
Proof.
  intros (pre & post & ->). exists (a ++ pre), post. by rewrite <- app_assoc.
Qed.

Lemma substring_of_app_l (x a b : pystr) :
  substring_of x a → substring_of x (a ++ b).
Proof.
  intros (pre & post & ->). exists pre, (post ++ b). by rewrite <- !app_assoc.
Qed.

(** X17. The prompt of the chat carries the text of the document, each
    message of the history as a line "role: content", and the
    question of the user after "User: ". *)
Theorem chatbot_prompt_contents (user_input context_text : pystr)
    (chat_history : list message) :
  substring_of context_text
    (chatbot_prompt user_input chat_history context_text) ∧
  substring_of (str "User: " ++ user_input)
    (chatbot_prompt user_input chat_history context_text) ∧
  ∀ msg, msg ∈ chat_history →
    substring_of (str (role msg) ++ str ": " ++ msg_content msg)
      (chatbot_prompt user_input chat_history context_text).
Proof.
  unfold chatbot_prompt. cbv zeta. split_and!.
  - do 5 apply substring_of_app_r. apply substring_of_app_l, substring_of_refl.
  - do 11 apply substring_of_app_r.
    exists [], ([LF] ++ str "AI:"). by rewrite <- app_assoc.
  - intros msg Hmsg. do 9 apply substring_of_app_r. apply substring_of_app_l.
    apply (join_elem_substring_of [LF]).
    apply (list_elem_of_fmap_2
             (λ msg, str (role msg) ++ str ": " ++ msg_content msg)), Hmsg.
Qed.

End Chat.

Lemma chat_history_alternates_witness :
  ∃ responses,
    length responses = 2%nat ∧
    fold_left (λ history prompt,
                 AppFunctions.chat_turn sample_generate_content sample_key
                   intro_doc prompt history)
              [str "What is this?"; str "And then?"] []
    = [] ++ mjoin (zip_with (λ prompt response,
                               [AppFunctions.Message "user" prompt;
                                AppFunctions.Message "assistant" response])
                            [str "What is this?"; str "And then?"] responses).
Proof.
  apply (chat_history_alternates sample_generate_content sample_key intro_doc
           [str "What is this?"; str "And then?"] []).
  repeat constructor; vm_compute; discriminate.
Defined.

Lemma chatbot_prompt_contents_witness :
  substring_of (str "user" ++ str ": " ++ str "What is this?")
    (AppFunctions.chatbot_prompt (str "And then?")
       [AppFunctions.Message "user" (str "What is this?")] intro_doc).
Proof.
  destruct (chatbot_prompt_contents (str "And then?") intro_doc
              [AppFunctions.Message "user" (str "What is this?")])
    as (_ & _ & H).
  apply (H (AppFunctions.Message "user" (str "What is this?"))).
  constructor.
Defined.

(** ** The quiz (app.py) *)

Section Quiz_properties.
Import PyVal AppQuiz.
Variable py_repr : Qna.json → pystr.

Lemma submit_answer_Returns (question_type : string)
    (user_answer : option pystr) (st st' : quiz_state) :
  submit_answer py_repr question_type user_answer st = Returns st' →
  st' = st ∨
  (current_question_index st < length (questions st))%nat ∧
  questions st' = questions st ∧
  current_question_index st' = (current_question_index st + 1)%nat ∧
  (user_score st' = user_score st ∨
   user_score st' = (user_score st + 1)%nat ∧
   (question_type = "mcq"%string ∨ question_type = "true/false"%string)).
Proof.
  unfold submit_answer.
  destruct (questions st !! current_question_index st) as [q|] eqn:Hq;
    [|intros [= <-]; by left].
  apply lookup_lt_Some in Hq.
  destruct (show_question question_type q); [|done].
  destruct user_answer as [answer|]; [|intros [= <-]; by left].
  unfold is_correct.
  destruct (bool_decide (question_type = "mcq"%string)) eqn:E1.
  - apply bool_decide_eq_true in E1.
    destruct (getitem "correct_answer" q) as [v|]; [|done].
    destruct v; intros [= <-]; right; simpl; split_and!; try done;
      try destruct (bool_decide (answer = _)); auto.
  - destruct (bool_decide (question_type = "true/false"%string)) eqn:E2.
    + apply bool_decide_eq_true in E2.
      destruct (getitem "correct_answer" q) as [v|]; [|done].
      intros [= <-]; right; simpl; split_and!; try done;
        destruct (bool_decide (lower answer = _)); auto.
    + intros [= <-]. right. simpl. split_and!; auto.
Qed.

Lemma step_invariant (st : quiz_state) (ev : event) :
  (user_score st ≤ current_question_index st ≤ length (questions st))%nat →
  questions (step py_repr st ev) = questions st ∧
  (user_score (step py_repr st ev) ≤ current_question_index (step py_repr st ev)
   ≤ length (questions (step py_repr st ev)))%nat.
Proof.
  intros Hst. destruct ev as [question_type user_answer|]; simpl.
  - destruct (submit_answer py_repr question_type user_answer st) as [st'|]
      eqn:E; [|done].
    apply submit_answer_Returns in E
      as [->|(Hlt & Hq & Hi & [Hs|[Hs _]])]; [done|..];
      rewrite Hq, Hi, Hs; split; [done | lia | done | lia].
  - unfold retake. case_match; simpl; [|done]. split; [done | lia].
Qed.

(** X18. From the moment a quiz is generated, whatever the user
    submits and however often the quiz is retaken, the questions stay
    the same and the score never exceeds the number of questions
    answered, which never exceeds the number of questions. *)
Theorem quiz_score_bounded (generated : option Qna.json) (evs : list event) :
  let st := run py_repr evs (generate_quiz generated) in
  questions st = questions (generate_quiz generated) ∧
  (user_score st ≤ current_question_index st ≤ length (questions st))%nat.
Proof.
  assert (∀ st0,
            (user_score st0 ≤ current_question_index st0
             ≤ length (questions st0))%nat →
            questions (run py_repr evs st0) = questions st0 ∧
            (user_score (run py_repr evs st0)
             ≤ current_question_index (run py_repr evs st0)
             ≤ length (questions (run py_repr evs st0)))%nat) as Hrun.
  { unfold run. induction evs as [|ev evs IH]; intros st0 Hst0; [done|].
    simpl. destruct (step_invariant st0 ev Hst0) as [Hq Hinv].
    destruct (IH _ Hinv) as [Hq' Hinv']. split; [congruence | done]. }
  apply Hrun. unfold generate_quiz.
  repeat case_match; simpl; lia.
Qed.

(** X19. A quiz of open-ended questions is never scored: while the
    type of question selected is neither mcq nor true/false, the score
    stays 0, so that the quiz ends with 0 of its questions. *)
Theorem quiz_open_ended_score (generated : option Qna.json) (evs : list event) :
  Forall open_ended evs →
  user_score (run py_repr evs (generate_quiz generated)) = 0%nat.
Proof.
  intros Hevs.
  assert (∀ st0, user_score st0 = 0%nat →
                 user_score (run py_repr evs st0) = 0%nat) as Hrun.
  { unfold run. induction Hevs as [|ev evs Hev _ IH]; intros st0 Hst0; [done|].
    simpl. apply IH. destruct ev as [question_type user_answer|]; simpl.
    - destruct (submit_answer py_repr question_type user_answer st0) as [st'|]
        eqn:E; [|done].
      destruct Hev as [Hmcq Htf].
      apply submit_answer_Returns in E
        as [->|(_ & _ & _ & [Hs|[_ [?|?]]])]; congruence.
    - unfold retake. by case_match. }
  apply Hrun. unfold generate_quiz. by repeat case_match.
Qed.

(** X20. app.py does not check the questions it is given: at a question
    without the field correct_answer every answer submitted to a
    multiple-choice or true/false form raises, the session is left as
    it was, and the quiz cannot get past this question. *)
Theorem quiz_stuck_without_correct_answer (st : quiz_state) (q : Qna.json)
    (e : error) (evs : list event) :
  questions st !! current_question_index st = Some q →
  getitem "correct_answer" q = Raises e →
  Forall graded evs →
  run py_repr evs st = st.
Proof.
  intros Hq Hkey Hevs. unfold run.
  induction Hevs as [|ev evs Hev _ IH]; [done|].
  simpl. replace (step py_repr st ev) with st; [done|].
  destruct ev as [question_type user_answer|]; simpl.
  - unfold submit_answer. rewrite Hq.
    destruct (show_question question_type q); [|done].
    destruct user_answer as [answer|]; [|done].
    unfold is_correct. destruct Hev as [->| ->]; simpl; by rewrite Hkey.
  - unfold retake. apply lookup_lt_Some in Hq.
    rewrite (bool_decide_eq_false_2 (length _ ≤ _)%nat) by lia.
    by rewrite andb_false_r.
Qed.

End Quiz_properties.

Lemma quiz_open_ended_score_witness :
  AppQuiz.user_score
    (AppQuiz.run (λ _, []) [AppQuiz.Submit "open-ended" (Some (str "because"))]
       (AppQuiz.generate_quiz (Some (Qna.JArray [Qna.JString "Why?"]))))
  = 0%nat.
Proof.
  apply (quiz_open_ended_score (λ _, [])
           (Some (Qna.JArray [Qna.JString "Why?"]))
           [AppQuiz.Submit "open-ended" (Some (str "because"))]).
  repeat constructor; discriminate.
Defined.

Lemma quiz_stuck_without_correct_answer_witness :
  AppQuiz.run (λ _, [])
    [AppQuiz.Submit "mcq" (Some (str "4")); AppQuiz.Submit "mcq" (Some (str "5"))]
    (AppQuiz.generate_quiz (Some (Qna.JArray [sample_mcq "answer"])))
  = AppQuiz.generate_quiz (Some (Qna.JArray [sample_mcq "answer"])).
Proof.
  apply (quiz_stuck_without_correct_answer (λ _, [])
           (AppQuiz.generate_quiz (Some (Qna.JArray [sample_mcq "answer"])))
           (sample_mcq "answer") PyVal.KeyError).
  - reflexivity.
  - reflexivity.
  - repeat constructor.
Defined.

(** ** Validation and use of the questions (qna.py) *)

Lemma assoc_is_Some (key : string) (fields : list (string * Qna.json)) :
  key ∈ fields.*1 → is_Some (PyVal.assoc key fields).
Proof.
  induction fields as [|[k v] fields IH]; simpl; [by intros ?%elem_of_nil|].
  intros [->|Hin]%elem_of_cons.
  - by rewrite decide_True.
  - case_decide; [done | by apply IH].
Qed.

Lemma has_key_getitem (key : string) (q : Qna.json) :
  Qna.has_key key q = true → ∃ v, PyVal.getitem key q = PyVal.Returns v.
Proof.
  destruct q as [| | | | |fields]; simpl; try done.
  intros [v Hv]%bool_decide_eq_true%assoc_is_Some. exists v. by rewrite Hv.
Qed.

Lemma dict_with_getitem (keys : list string) (key : string) (q : Qna.json) :
  Qna.dict_with keys q = true → key ∈ keys →
  ∃ v, PyVal.getitem key q = PyVal.Returns v.
Proof.
  unfold Qna.dict_with. intros [_ Hall]%andb_true_iff Hkey.
  apply has_key_getitem. rewrite forallb_forall in Hall.
  by apply Hall, list_elem_of_In.
Qed.

(** What [generate_questions] returns for an array of items. *)
Lemma generate_questions_checked (question_type : string)
    (items : list Qna.json) (check : Qna.json → bool) (q : Qna.json) :
  q ∈ (if forallb check items then items else []) → check q = true.
Proof.
  destruct (forallb check items) eqn:E; [|by intros ?%elem_of_nil].
  rewrite forallb_forall in E. intros Hq. by apply E, list_elem_of_In.
Qed.

(** X21. [generate_questions] returns all of the parsed array or
    nothing of it, for every type of question. For the types it
    checks, the quiz loop prints each question it returns without a
    missing field: true/false, fill-in-the-blanks and open-ended
    questions never raise, and a multiple-choice question raises only
    a [TypeError], when its options are a number, a truth value or
    null. A mixed quiz is returned unchecked, and an item of it that is
    a text makes the loop raise. *)
Theorem generate_questions_all_or_nothing (question_type : string)
    (response : option Qna.json) :
  (Qna.generate_questions question_type response = [] ∨
   response
   = Some (Qna.JArray (Qna.generate_questions question_type response))) ∧
  (∀ q, q ∈ Qna.generate_questions question_type response →
     question_type = "true/false"%string ∨
     question_type = "fill-in-the-blanks"%string ∨
     question_type = "open-ended"%string →
     QnaMain.show_question question_type q = PyVal.Returns ()) ∧
  (∀ q, q ∈ Qna.generate_questions question_type response →
     question_type = "mcq"%string →
     ∃ options,
       PyVal.getitem "options" q = PyVal.Returns options ∧
       QnaMain.show_question question_type q
       = if QnaMain.iterable options then PyVal.Returns ()
         else PyVal.Raises PyVal.TypeError) ∧
  (∀ items s,
     Qna.generate_questions "mixed" (Some (Qna.JArray items)) = items ∧
     QnaMain.show_question "mixed" (Qna.JString s)
     = PyVal.Raises PyVal.AttributeError).
Proof.
  split_and!.
  - unfold Qna.generate_questions.
    destruct response as [[| | | |items|]|]; try by left.
    repeat case_bool_decide; try (by left); try (by right);
      destruct (forallb _ items); (by left) || (by right).
  - intros q Hq Htype. unfold Qna.generate_questions in Hq.
    destruct response as [[| | | |items|]|]; try by apply elem_of_nil in Hq.
    destruct Htype as [->|[->| ->]]; simpl in Hq;
      apply (generate_questions_checked "") in Hq.
    + destruct (dict_with_getitem _ "statement" _ Hq) as [v Hv];
        [repeat constructor|].
      unfold QnaMain.show_question. simpl. by rewrite Hv.
    + destruct (dict_with_getitem _ "question" _ Hq) as [v Hv];
        [repeat constructor|].
      unfold QnaMain.show_question. simpl. by rewrite Hv.
    + by destruct q.
  - intros q Hq ->. unfold Qna.generate_questions in Hq.
    destruct response as [[| | | |items|]|]; try by apply elem_of_nil in Hq.
    simpl in Hq. apply (generate_questions_checked "") in Hq.
    destruct (dict_with_getitem _ "question" _ Hq) as [v Hv];
      [repeat constructor|].
    destruct (dict_with_getitem _ "options" _ Hq) as [options Ho];
      [repeat constructor|].
    exists options. split; [done|].
    unfold QnaMain.show_question. simpl. by rewrite Hv, Ho.
  - intros items s. split; reflexivity.
Qed.

Lemma generate_questions_all_or_nothing_witness :
  QnaMain.show_question "true/false"
    (Qna.JObject [("statement"%string, Qna.JString "2 + 2 = 4");
                  ("correct_answer"%string, Qna.JBool true)])
  = PyVal.Returns ().
Proof.
  destruct (generate_questions_all_or_nothing "true/false"
              (Some (Qna.JArray
                       [Qna.JObject
                          [("statement"%string, Qna.JString "2 + 2 = 4");
                           ("correct_answer"%string, Qna.JBool true)]])))
    as (_ & H & _).
  apply H.
  - vm_compute. constructor.
  - by left.
Defined.

Lemma all_in_object (keys : list string) (fields : list (string * Qna.json)) :
  PyVal.all_in keys (Qna.JObject fields)
  = PyVal.Returns (forallb (λ key, bool_decide (key ∈ fields.*1)) keys).
Proof.
  induction keys as [|key keys IH]; simpl; [done|].
  by destruct (bool_decide (key ∈ fields.*1)).
Qed.

(** X22. When the evaluation parses to an object, [evaluate_answer]
    returns it if it has the three fields score, feedback and
    correct_answer, and nothing otherwise; for a response that parses
    to a number, a truth value or null the test of the fields raises a
    [TypeError], which the function does not catch. *)
Theorem evaluate_answer_validation (fields : list (string * Qna.json)) :
  ("score"%string ∈ fields.*1 ∧ "feedback"%string ∈ fields.*1 ∧
   "correct_answer"%string ∈ fields.*1 →
   QnaEvaluate.evaluate_answer (Some (Qna.JObject fields))
   = PyVal.Returns (Some (Qna.JObject fields))) ∧
  (¬ ("score"%string ∈ fields.*1 ∧ "feedback"%string ∈ fields.*1 ∧
      "correct_answer"%string ∈ fields.*1) →
   QnaEvaluate.evaluate_answer (Some (Qna.JObject fields))
   = PyVal.Returns None) ∧
  (∀ z, QnaEvaluate.evaluate_answer (Some (Qna.JNumber z))
        = PyVal.Raises PyVal.TypeError) ∧
  (∀ b, QnaEvaluate.evaluate_answer (Some (Qna.JBool b))
        = PyVal.Raises PyVal.TypeError) ∧
  QnaEvaluate.evaluate_answer (Some Qna.JNull) = PyVal.Raises PyVal.TypeError.
Proof.
  unfold QnaEvaluate.evaluate_answer. rewrite all_in_object. simpl.
  split_and!; try done.
  - intros (H1 & H2 & H3). by rewrite !bool_decide_eq_true_2.
  - intros Hnot.
    destruct (bool_decide ("score"%string ∈ fields.*1)) eqn:E1; [|done].
    destruct (bool_decide ("feedback"%string ∈ fields.*1)) eqn:E2; [|done].
    destruct (bool_decide ("correct_answer"%string ∈ fields.*1)) eqn:E3;
      [|done].
    apply bool_decide_eq_true in E1, E2, E3. by destruct Hnot.
Qed.

Lemma evaluate_answer_validation_witness :
  QnaEvaluate.evaluate_answer
    (Some (Qna.JObject [("score"%string, Qna.JNumber 80);
                        ("feedback"%string, Qna.JString "Good.");
                        ("correct_answer"%string, Qna.JString "4")]))
  = PyVal.Returns
      (Some (Qna.JObject [("score"%string, Qna.JNumber 80);
                          ("feedback"%string, Qna.JString "Good.");
                          ("correct_answer"%string, Qna.JString "4")])) ∧
  QnaEvaluate.evaluate_answer
    (Some (Qna.JObject [("score"%string, Qna.JNumber 80)]))
  = PyVal.Returns None.
Proof.
  split.
  - apply (evaluate_answer_validation
             [("score"%string, Qna.JNumber 80);
              ("feedback"%string, Qna.JString "Good.");
              ("correct_answer"%string, Qna.JString "4")]).
    split_and!; apply (bool_decide_unpack _); vm_compute; exact I.
  - destruct (evaluate_answer_validation [("score"%string, Qna.JNumber 80)])
      as (_ & H & _).
    apply H. intros (_ & H2 & _). revert H2.
    apply (bool_decide_unpack _). vm_compute. exact I.
Defined.


(** ** The text the main program of summarizer_backend.py summarizes *)

Lemma backend_get_text_for_topic_cases
    (full_text selected_topic : pystr) (all_titles : list pystr) :
  SummarizerBackend.get_text_for_topic full_text selected_topic all_titles
  = full_text ∨
  ∃ a b, SummarizerBackend.get_text_for_topic full_text selected_topic
           all_titles = strip (slice a b full_text).
Proof.
  unfold SummarizerBackend.get_text_for_topic. case_match; [by left|].
  unfold SummarizerBackend.extracted_section.
  destruct (SummarizerBackend.heading_search selected_topic full_text)
    as [[s e]|]; [|by left].
  case_match; [by left|]. right. by eexists _, _.
Qed.

(** X23. The main program accepts the numbers 0 to the number of
    titles and no other; the text it goes on to summarize is the whole
    document or a part of it that has more than 50 characters and no
    white space at either end. *)
Theorem summarize_for_text_choice (extracted_text : pystr)
    (extracted_titles : list pystr) (topic_idx : Z) :
  (extracted_titles ≠ [] →
   (is_Some (SummarizerBackendMain.summarize_for_text extracted_text
               extracted_titles topic_idx)
    ↔ 0 ≤ topic_idx ≤ Z.of_nat (length extracted_titles))) ∧
  ∀ text,
    SummarizerBackendMain.summarize_for_text extracted_text extracted_titles
      topic_idx = Some text →
    text = extracted_text ∨
    substring_of text extracted_text ∧ (50 < length text)%nat ∧
    strip text = text.
Proof.
  unfold SummarizerBackendMain.summarize_for_text. split.
  - intros Htitles. rewrite bool_decide_eq_false_2 by done.
    case_bool_decide as H0; [subst; split; [lia | done]|].
    case_bool_decide as Hrange.
    + destruct (extracted_titles !! Z.to_nat (topic_idx - 1)) as [t|] eqn:E.
      * split; [lia|]. intros _. by case_match.
      * apply lookup_ge_None in E. lia.
    + split; [by intros [? ?] | lia].
  - intros text. repeat case_bool_decide; try (intros [= <-]; by left);
      try done.
    destruct (extracted_titles !! Z.to_nat (topic_idx - 1)) as [t|]; [|done].
    destruct (bool_decide _ && _) eqn:E; intros [= <-]; [|by left].
    apply andb_true_iff in E as [_ Hlen%Nat.ltb_lt].
    destruct (backend_get_text_for_topic_cases extracted_text t
                extracted_titles) as [Hfull|(a & b & Hsec)]; [by left|].
    right. rewrite Hsec in *. split_and!.
    + eapply substring_of_trans;
        [apply strip_substring_of | apply slice_substring_of].
    + by rewrite strip_idemp in Hlen.
    + apply strip_idemp.
Qed.

Lemma summarize_for_text_choice_witness :
  is_Some (SummarizerBackendMain.summarize_for_text intro_doc
             [str "Intro"; str "Chapter2"] 2).
Proof.
  apply (summarize_for_text_choice intro_doc [str "Intro"; str "Chapter2"] 2).
  - discriminate.
  - simpl. lia.
Defined.

(** ** The rest days (app.py) *)

(** X24. The schedule of app.py shows a rest day for each day left
    without a subject: 7 - n of them for n named subjects, none from
    seven subjects on. *)
Theorem rest_days_length (topics : list topic)
    (schedule : gmap string (list App.task)) :
  App.generate_schedule topics = Some schedule →
  length (AppSchedulerForm.rest_days schedule)
  = (7 - length (App.valid_topics topics))%nat.
Proof.
  intros Hs. unfold App.generate_schedule in Hs.
  case_bool_decide; [done|]. injection Hs as <-.
  unfold AppSchedulerForm.rest_days, week_days.
  remember (length (App.valid_topics topics)) as n eqn:Hn.
  assert (∀ k day, week_days !! k = Some day →
            App.assign_days (App.sorted_by_score (App.valid_topics topics))
              !!! day = [] ↔ (n ≤ k)%nat) as Hday.
  { intros k day Hday. rewrite <- length_zero_iff_nil.
    unfold App.assign_days. rewrite fold_left_append_task_map.
    rewrite (append_task_loop_length _ k day Hday), length_fmap.
    rewrite (Permutation_length (sorted_by_score_Permutation _)), <- Hn.
    pose proof (week_days_lookup_lt _ _ Hday).
    euclid7 (n + 6 - k)%nat. lia. }
  pose proof (Hday 0%nat "Monday"%string eq_refl).
  pose proof (Hday 1%nat "Tuesday"%string eq_refl).
  pose proof (Hday 2%nat "Wednesday"%string eq_refl).
  pose proof (Hday 3%nat "Thursday"%string eq_refl).
  pose proof (Hday 4%nat "Friday"%string eq_refl).
  pose proof (Hday 5%nat "Saturday"%string eq_refl).
  pose proof (Hday 6%nat "Sunday"%string eq_refl).
  rewrite !filter_cons, filter_nil.
  repeat case_decide;
    repeat match goal with
           | Hiff : ?P ↔ _, HP : ?P |- _ => apply (proj1 Hiff) in HP
           | Hiff : ?P ↔ _, HP : ¬ ?P |- _ =>
               apply (proj1 (not_iff_compat Hiff)) in HP
           end;
    cbn [length]; lia.
Qed.

Lemma rest_days_length_witness :
  length (AppSchedulerForm.rest_days
            (App.assign_days (App.sorted_by_score
                                (App.valid_topics sample_subjects))))
  = (7 - length (App.valid_topics sample_subjects))%nat.
Proof.
  apply (rest_days_length sample_subjects). reflexivity.
Defined.

Lemma generate_schedule_warning_witness :
  App.generate_schedule [Topic (str "  ") 10; Topic [] 90] = None.
Proof.
  destruct (generate_schedule_warning [Topic (str "  ") 10; Topic [] 90])
    as [[_ H] _].
  apply H. repeat constructor.
Defined.
